(** * The CoCoRaHS submission backend (src/cocorahs_backend.py)

    A shallow embedding of the Selenium pipeline that logs in to the
    CoCoRaHS portal, opens the daily precipitation form, fills it from a
    JSON request and submits it.  The browser is an interface
    ([WebDriver]); every stage is a computation over a world made of a
    browser state and the trace of what was done to it. *)

From Stdlib Require Import DecimalString Ascii.
From stdpp Require Import base strings gmap list.

Open Scope string_scope.
Open Scope nat_scope.

(** ** Python builtins used by the backend *)

Module Py.

(** Exceptions carry their class name and the text [str(e)] gives. *)
Record Exn := { exn_class : string; exn_str : string }.

Inductive Outcome (A : Type) :=
| Ok (a : A)
| Raise (e : Exn).
Arguments Ok {A} a.
Arguments Raise {A} e.

(** [str.isspace] on the ASCII range: tab to carriage return, the four
    separators 0x1c-0x1f and the space. *)
Definition is_space (c : ascii) : bool :=
  let n := nat_of_ascii c in
  (n =? 32) || ((9 <=? n) && (n <=? 13)) || ((28 <=? n) && (n <=? 31)).

Fixpoint lstrip (s : string) : string :=
  match s with
  | EmptyString => EmptyString
  | String c s' => if is_space c then lstrip s' else s
  end.

Fixpoint rstrip (s : string) : string :=
  match s with
  | EmptyString => EmptyString
  | String c s' =>
      match rstrip s' with
      | EmptyString => if is_space c then EmptyString else String c EmptyString
      | r => String c r
      end
  end.

(** [s.strip()] *)
Definition strip (s : string) : string := rstrip (lstrip s).

(** Truth value of a [str]: non-empty. *)
Definition str_truthy (s : string) : bool :=
  match s with EmptyString => false | String _ _ => true end.

(** [needle in hay] on strings. *)
Fixpoint contains (needle hay : string) : bool :=
  String.prefix needle hay
  || match hay with
     | EmptyString => false
     | String _ hay' => contains needle hay'
     end.

Definition lower_char (c : ascii) : ascii :=
  let n := nat_of_ascii c in
  if (65 <=? n) && (n <=? 90) then ascii_of_nat (n + 32) else c.

(** [s.lower()] on the ASCII range. *)
Fixpoint lower (s : string) : string :=
  match s with
  | EmptyString => EmptyString
  | String c s' => String (lower_char c) (lower s')
  end.

Fixpoint zeros (n : nat) : string :=
  match n with O => EmptyString | S n' => String "0" (zeros n') end.

Definition is_sign (c : ascii) : bool :=
  (nat_of_ascii c =? 43) || (nat_of_ascii c =? 45).

(** [s.zfill(width)]: zeros go after a leading sign. *)
Definition zfill (width : nat) (s : string) : string :=
  match s with
  | EmptyString => zeros width
  | String c s' =>
      if is_sign c
      then String c (zeros (width - String.length s) ++ s')
      else zeros (width - String.length s) ++ s
  end.

(** [str(z)] for an [int]. *)
Definition str_int (z : Z) : string :=
  NilZero.string_of_int (Z.to_int z).

(** A value decoded from JSON.  A float is carried by the text [str]
    gives it (floating point is outside the model); an array or object
    by that text and its truth value. *)
Inductive PyVal :=
| PyNone
| PyBool (b : bool)
| PyInt (z : Z)
| PyFloat (repr : string)
| PyStr (s : string)
| PyContainer (repr : string) (nonempty : bool).

(** [str(v)] *)
Definition str (v : PyVal) : string :=
  match v with
  | PyNone => "None"
  | PyBool true => "True"
  | PyBool false => "False"
  | PyInt z => str_int z
  | PyFloat r => r
  | PyStr s => s
  | PyContainer r _ => r
  end.

(** [bool(v)] *)
Definition truthy (v : PyVal) : bool :=
  match v with
  | PyNone => false
  | PyBool b => b
  | PyInt z => negb (z =? 0)%Z
  | PyFloat r => negb (String.eqb r "0.0" || String.eqb r "-0.0")
  | PyStr s => str_truthy s
  | PyContainer _ ne => ne
  end.

(** [d.get(key)] and [d.get(key, default)] *)
Definition dict_get (d : gmap string PyVal) (key : string) : PyVal :=
  default PyNone (d !! key).

Definition dict_get_default (d : gmap string PyVal) (key : string)
    (dflt : PyVal) : PyVal :=
  default dflt (d !! key).

(** [d[key]] *)
Definition dict_item (d : gmap string PyVal) (key : string) : Outcome PyVal :=
  match d !! key with
  | Some v => Ok v
  | None => Raise {| exn_class := "KeyError"; exn_str := "'" ++ key ++ "'" |}
  end.

(** *** [datetime.fromisoformat]

    The grammar of CPython 3.7 to 3.10,
    [YYYY-MM-DD[*HH[:MM[:SS[.fff[fff]]]][+HH:MM[:SS[.ffffff]]]]],
    with the range checks of the [datetime] constructor.  The UTC offset
    is validated and dropped: the backend never reads it. *)

Record datetime := {
  year : Z; month : Z; day : Z;
  hour : Z; minute : Z; second : Z; microsecond : Z
}.

Definition digit (c : ascii) : option Z :=
  let n := nat_of_ascii c in
  if (48 <=? n) && (n <=? 57) then Some (Z.of_nat (n - 48)) else None.

Fixpoint int_of_digits (acc : Z) (s : string) : option Z :=
  match s with
  | EmptyString => Some acc
  | String c s' =>
      match digit c with
      | Some d => int_of_digits (10 * acc + d)%Z s'
      | None => None
      end
  end.

(** [int(s)] for a field of exactly [n] decimal digits. *)
Definition int_field (n : nat) (s : string) : option Z :=
  if String.length s =? n then int_of_digits 0 s else None.

Definition is_char (c : ascii) (s : string) : bool :=
  match s with
  | String c' EmptyString => Ascii.eqb c c'
  | _ => false
  end.

(** [_parse_isoformat_date] on [dtstr[0:10]] *)
Definition parse_isoformat_date (dstr : string) : option (Z * Z * Z) :=
  match int_field 4 (String.substring 0 4 dstr),
        int_field 2 (String.substring 5 2 dstr),
        int_field 2 (String.substring 8 2 dstr) with
  | Some y, Some m, Some d =>
      if is_char "-" (String.substring 4 1 dstr)
         && is_char "-" (String.substring 7 1 dstr)
      then Some (y, m, d) else None
  | _, _, _ => None
  end.

(** The fraction after the seconds: three or six digits. *)
Definition parse_fraction (frac : string) : option Z :=
  match String.length frac with
  | 3 => option_map (Z.mul 1000) (int_of_digits 0 frac)
  | 6 => int_of_digits 0 frac
  | _ => None
  end.

(** [_parse_hh_mm_ss_ff]: HH[:MM[:SS[.fff[fff]]]] *)
Definition parse_hh_mm_ss_ff (tstr : string) : option (Z * Z * Z * Z) :=
  match int_field 2 (String.substring 0 2 tstr) with
  | None => None
  | Some h =>
    match String.substring 2 1 tstr with
    | EmptyString => Some (h, 0, 0, 0)%Z
    | sep1 =>
      if negb (is_char ":" sep1) then None else
      match int_field 2 (String.substring 3 2 tstr) with
      | None => None
      | Some m =>
        match String.substring 5 1 tstr with
        | EmptyString => Some (h, m, 0, 0)%Z
        | sep2 =>
          if negb (is_char ":" sep2) then None else
          match int_field 2 (String.substring 6 2 tstr) with
          | None => None
          | Some s =>
            match String.substring 8 1 tstr with
            | EmptyString => Some (h, m, s, 0%Z)
            | dot =>
              if negb (is_char "." dot) then None else
              match parse_fraction
                      (String.substring 9 (String.length tstr - 9) tstr) with
              | Some us => Some (h, m, s, us)
              | None => None
              end
            end
          end
        end
      end
    end
  end.

(** Position of the first [c] in [s] ([str.find]). *)
Fixpoint find_char (c : ascii) (s : string) : option nat :=
  match s with
  | EmptyString => None
  | String c' s' =>
      if Ascii.eqb c c' then Some 0 else option_map S (find_char c s')
  end.

(** A UTC offset string: length 5, 8 or 15, strictly less than a day. *)
Definition valid_tz (tzstr : string) : bool :=
  let n := String.length tzstr in
  ((n =? 5) || (n =? 8) || (n =? 15))
  && match parse_hh_mm_ss_ff tzstr with
     | Some (h, m, s, _) => (h * 3600 + m * 60 + s <? 86400)%Z
     | None => false
     end.

(** [_parse_isoformat_time]: the offset starts at the first '-', or
    else at the first '+'. *)
Definition parse_isoformat_time (tstr : string) : option (Z * Z * Z * Z) :=
  if String.length tstr <? 2 then None else
  let tz_pos := match find_char "-" tstr with
                | Some i => Some i
                | None => find_char "+" tstr
                end in
  match tz_pos with
  | None => parse_hh_mm_ss_ff tstr
  | Some i =>
      if valid_tz (String.substring (S i) (String.length tstr - S i) tstr)
      then parse_hh_mm_ss_ff (String.substring 0 i tstr)
      else None
  end.

Definition is_leap (y : Z) : bool :=
  ((y mod 4 =? 0) && (negb (y mod 100 =? 0) || (y mod 400 =? 0)))%Z.

Definition days_in_month (y m : Z) : Z :=
  (if m =? 2 then (if is_leap y then 29 else 28)
   else if (m =? 4) || (m =? 6) || (m =? 9) || (m =? 11) then 30
   else 31)%Z.

(** The checks of the [datetime] constructor. *)
Definition valid_datetime (dt : datetime) : bool :=
  ((1 <=? year dt) && (year dt <=? 9999)
   && (1 <=? month dt) && (month dt <=? 12)
   && (1 <=? day dt) && (day dt <=? days_in_month (year dt) (month dt))
   && (0 <=? hour dt) && (hour dt <=? 23)
   && (0 <=? minute dt) && (minute dt <=? 59)
   && (0 <=? second dt) && (second dt <=? 59)
   && (0 <=? microsecond dt) && (microsecond dt <=? 999999))%Z.

Definition parse_isoformat (date_string : string) : option datetime :=
  match parse_isoformat_date (String.substring 0 10 date_string) with
  | None => None
  | Some (y, mo, d) =>
      let tstr := String.substring 11 (String.length date_string - 11)
                    date_string in
      let time_components :=
        match tstr with
        | EmptyString => Some (0, 0, 0, 0)%Z
        | _ => parse_isoformat_time tstr
        end in
      match time_components with
      | None => None
      | Some (h, mi, s, us) =>
          let dt := {| year := y; month := mo; day := d; hour := h;
                       minute := mi; second := s; microsecond := us |} in
          if valid_datetime dt then Some dt else None
      end
  end.

(** [datetime.fromisoformat(v)] *)
Definition fromisoformat (v : PyVal) : Outcome datetime :=
  match v with
  | PyStr s =>
      match parse_isoformat s with
      | Some dt => Ok dt
      | None => Raise {| exn_class := "ValueError";
                         exn_str := "Invalid isoformat string" |}
      end
  | _ => Raise {| exn_class := "TypeError";
                  exn_str := "fromisoformat: argument must be str" |}
  end.

End Py.


Import Py.

(** ** The browser: Selenium's WebDriver as an interface *)

(** [selenium.webdriver.common.by.By] *)
Inductive By :=
| ID | XPATH | LINK_TEXT | PARTIAL_LINK_TEXT
| NAME | TAG_NAME | CLASS_NAME | CSS_SELECTOR.

(** What the backend asks of a driver with state [B] and element handles
    [E].  Commands ([get], [clear], [send_keys], [click]) change the
    browser and may raise; queries read it and may raise.  [drv_wait n]
    is what the page does on its own during [time.sleep(n)] (a redirect
    completing, a form loading).  Chrome's [quit] swallows the faults of
    the remote end, so it is total. *)
Class WebDriver (B E : Type) := {
  drv_get : string -> B -> Outcome unit * B;
  drv_find_elements : By -> string -> B -> Outcome (list E);
  drv_find_element : By -> string -> B -> Outcome E;
  drv_title : B -> Outcome string;
  drv_current_url : B -> Outcome string;
  drv_quit : B -> B;
  drv_wait : nat -> B -> B;
  elt_get_attribute : E -> string -> B -> Outcome (option string);
  elt_text : E -> B -> Outcome string;
  elt_clear : E -> B -> Outcome unit * B;
  elt_send_keys : E -> string -> B -> Outcome unit * B;
  elt_click : E -> B -> Outcome unit * B
}.

Inductive Level := INFO | WARNING | ERROR.

(** One entry of the trace of a run: a call on the driver or on an
    element, a sleep, or a log record.  A log record keeps its level and
    the source text of its message; the values an f-string interpolates
    are not rendered. *)
Inductive Event (E : Type) :=
| Launch
| Get (url : string)
| FindElements (how : By) (value : string)
| FindElement (how : By) (value : string)
| Title
| CurrentUrl
| Quit
| GetAttribute (e : E) (name : string)
| Text (e : E)
| Clear (e : E)
| SendKeys (e : E) (keys : string)
| Click (e : E)
| Sleep (secs : nat)
| Log (lvl : Level) (msg : string).
Arguments Launch {E}.
Arguments Get {E} url.
Arguments FindElements {E} how value.
Arguments FindElement {E} how value.
Arguments Title {E}.
Arguments CurrentUrl {E}.
Arguments Quit {E}.
Arguments GetAttribute {E} e name.
Arguments Text {E} e.
Arguments Clear {E} e.
Arguments SendKeys {E} e keys.
Arguments Click {E} e.
Arguments Sleep {E} secs.
Arguments Log {E} lvl msg.

Record World (B E : Type) := {
  browser : B;
  trace : list (Event E)
}.
Arguments browser {B E} w.
Arguments trace {B E} w.

(** Computations of the backend: they act on the world and return a
    value or raise. *)
Definition M (B E A : Type) : Type := World B E -> Outcome A * World B E.

Declare Scope py_scope.
Delimit Scope py_scope with py.

Section Monad.
Context {B E : Type}.

Definition ret {A} (a : A) : M B E A := fun w => (Ok a, w).

Definition raise {A} (e : Exn) : M B E A := fun w => (Raise e, w).

Definition bind {A A'} (m : M B E A) (k : A -> M B E A') : M B E A' :=
  fun w =>
    match m w with
    | (Ok a, w') => k a w'
    | (Raise e, w') => (Raise e, w')
    end.

(** A pure Python expression that may raise. *)
Definition lift {A} (o : Outcome A) : M B E A := fun w => (o, w).

(** [try: body except Exception as e: handler e] *)
Definition try_except {A} (body : M B E A) (handler : Exn -> M B E A)
    : M B E A :=
  fun w =>
    match body w with
    | (Ok a, w') => (Ok a, w')
    | (Raise e, w') => handler e w'
    end.

(** [try: body finally: final]; a fault of [final] replaces the
    result of [body]. *)
Definition try_finally {A} (body : M B E A) (final : M B E unit)
    : M B E A :=
  fun w =>
    match body w with
    | (r, w') =>
        match final w' with
        | (Ok _, w'') => (r, w'')
        | (Raise e, w'') => (Raise e, w'')
        end
    end.

Definition emit (ev : Event E) (w : World B E) : World B E :=
  {| browser := browser w; trace := trace w ++ [ev] |}.

(** [logger.info], [logger.warning], [logger.error] *)
Definition log (lvl : Level) (msg : string) : M B E unit :=
  fun w => (Ok tt, emit (Log lvl msg) w).
End Monad.

Notation "x <- c1 ;; c2" := (bind c1 (fun x => c2))
  (at level 100, c1 at next level, right associativity) : py_scope.
Notation "c1 ;; c2" := (bind c1 (fun _ => c2))
  (at level 100, right associativity) : py_scope.
Open Scope py_scope.

Section Driver.
Context {B E : Type} {drv : WebDriver B E}.

Definition command (ev : Event E) (f : B -> Outcome unit * B)
    : M B E unit :=
  fun w =>
    match f (browser w) with
    | (r, b') => (r, {| browser := b'; trace := trace w ++ [ev] |})
    end.

Definition query {A} (ev : Event E) (f : B -> Outcome A) : M B E A :=
  fun w => (f (browser w), emit ev w).

Definition get (url : string) : M B E unit :=
  command (Get url) (drv_get url).
Definition find_elements (how : By) (value : string) : M B E (list E) :=
  query (FindElements how value) (drv_find_elements how value).
Definition find_element (how : By) (value : string) : M B E E :=
  query (FindElement how value) (drv_find_element how value).
Definition title : M B E string := query Title drv_title.
Definition current_url : M B E string := query CurrentUrl drv_current_url.
Definition get_attribute (e : E) (name : string)
    : M B E (option string) :=
  query (GetAttribute e name) (elt_get_attribute e name).
Definition text (e : E) : M B E string := query (Text e) (elt_text e).
Definition clear (e : E) : M B E unit := command (Clear e) (elt_clear e).
Definition send_keys (e : E) (keys : string) : M B E unit :=
  command (SendKeys e keys) (elt_send_keys e keys).
Definition click (e : E) : M B E unit := command (Click e) (elt_click e).

(** [driver.quit()] *)
Definition quit : M B E unit :=
  fun w => (Ok tt, {| browser := drv_quit (browser w);
                      trace := trace w ++ [Quit] |}).

(** [time.sleep(secs)] *)
Definition sleep (secs : nat) : M B E unit :=
  fun w => (Ok tt, {| browser := drv_wait secs (browser w);
                      trace := trace w ++ [Sleep secs] |}).

(** [for x in l: body x] *)
Fixpoint for_each {A} (l : list A) (body : A -> M B E unit) : M B E unit :=
  match l with
  | [] => ret tt
  | x :: l' => body x ;; for_each l' body
  end.
End Driver.

(** ** The backend *)

Definition COCORAHS_USERNAME : string := "lscwx".
Definition COCORAHS_PASSWORD : string := "stratus".
Definition COCORAHS_STATION : string := "VT-CL-14".
Definition COCORAHS_LOGIN_URL : string :=
  "https://www.cocorahs.org/Login.aspx".
Definition COCORAHS_SUBMIT_URL : string :=
  "https://www.cocorahs.org/Admin/MyDataEntry/DailyPrecipReport.aspx".

(** The three strategy lists of [login_to_cocorahs]. *)
Definition username_selectors : list (By * string) :=
  [ (NAME, "UserName"); (NAME, "username"); (ID, "UserName");
    (ID, "username"); (NAME, "txtUserName"); (ID, "txtUserName") ].

Definition password_selectors : list (By * string) :=
  [ (NAME, "Password"); (NAME, "password"); (ID, "Password");
    (ID, "password"); (NAME, "txtPassword"); (ID, "txtPassword") ].

Definition login_button_selectors : list (By * string) :=
  [ (NAME, "btnLogin"); (ID, "btnLogin");
    (CSS_SELECTOR, "button[type='submit']") ].

(** [x == "literal"] for an attribute that may be [None]. *)
Definition attr_is (a : option string) (lit : string) : bool :=
  match a with
  | Some s => String.eqb s lit
  | None => false
  end.

Definition nonempty {A} (l : list A) : bool :=
  match l with [] => false | _ :: _ => true end.

Section Stages.
Context {B E : Type} {drv : WebDriver B E}.

(** *** login_to_cocorahs *)

(** Lines 55-79: open the login page and log what is on it. *)
Definition login_enumerate : M B E unit :=
  log INFO "Navigating to CoCoRaHS login..." ;;
  get COCORAHS_LOGIN_URL ;;
  sleep 2 ;;
  all_inputs <- find_elements TAG_NAME "input" ;;
  log INFO "Found {len(all_inputs)} input fields on page" ;;
  for_each all_inputs (fun inp =>
    get_attribute inp "id" ;;
    get_attribute inp "name" ;;
    get_attribute inp "type" ;;
    log INFO "  [{idx}] type={inp_type}, id={inp_id}, name={inp_name}") ;;
  all_buttons <- find_elements TAG_NAME "button" ;;
  log INFO "Found {len(all_buttons)} button elements" ;;
  for_each all_buttons (fun btn =>
    get_attribute btn "id" ;;
    get_attribute btn "name" ;;
    text btn ;;
    log INFO "  [{idx}] id={btn_id}, name={btn_name}, text={btn_text}") ;;
  all_forms <- find_elements TAG_NAME "form" ;;
  log INFO "Found {len(all_forms)} form elements".

(** The loop the function runs once per field:
    for each selector, try [find_element] with it, log the match and
    [break]; on an exception [continue].
    [None] is the field left at its initial [None]. *)
Fixpoint first_match (found : string) (selectors : list (By * string))
    : M B E (option E) :=
  match selectors with
  | [] => ret None
  | (how, value) :: rest =>
      r <- try_except
             (field <- find_element how value ;;
              log INFO found ;;
              ret (Some field))
             (fun _ => ret None) ;;
      match r with
      | Some field => ret (Some field)
      | None => first_match found rest
      end
  end.

(** Lines 86-111; [None] stands for the [return False] of line 111. *)
Definition locate_username : M B E (option E) :=
  username_field <-
    first_match "Found username field using {selector}"
      username_selectors ;;
  match username_field with
  | Some field => ret (Some field)
  | None =>
      try_except
        (field <- find_element CSS_SELECTOR "input[type='text']" ;;
         log INFO "Found username field using CSS selector for text input" ;;
         ret (Some field))
        (fun _ =>
           log ERROR "Could not find username field by any method" ;;
           ret None)
  end.

(** Lines 113-137 *)
Definition locate_password : M B E (option E) :=
  password_field <-
    first_match "Found password field using {selector}"
      password_selectors ;;
  match password_field with
  | Some field => ret (Some field)
  | None =>
      try_except
        (field <- find_element CSS_SELECTOR "input[type='password']" ;;
         log INFO
           "Found password field using CSS selector for password input" ;;
         ret (Some field))
        (fun _ => log ERROR "Could not find password field" ;; ret None)
  end.

(** Lines 139-156 *)
Definition locate_login_button : M B E (option E) :=
  login_button <-
    first_match "Found login button using {selector}"
      login_button_selectors ;;
  match login_button with
  | Some button => ret (Some button)
  | None => log ERROR "Could not find login button" ;; ret None
  end.

(** Lines 55-168: everything up to and including the click on the
    login control.  [true]: the control was clicked; [false]: one of
    the three [return False] of the lookups. *)
Definition login_click : M B E bool :=
  login_enumerate ;;
  username_field <- locate_username ;;
  match username_field with
  | None => ret false
  | Some username_field =>
      password_field <- locate_password ;;
      match password_field with
      | None => ret false
      | Some password_field =>
          login_button <- locate_login_button ;;
          match login_button with
          | None => ret false
          | Some login_button =>
              log INFO "Filling username: {COCORAHS_USERNAME}" ;;
              clear username_field ;;
              send_keys username_field COCORAHS_USERNAME ;;
              log INFO "Filling password" ;;
              clear password_field ;;
              send_keys password_field COCORAHS_PASSWORD ;;
              log INFO "Clicking login button" ;;
              click login_button ;;
              ret true
          end
      end
  end.

(** Lines 170-180: wait for the redirect and decide. *)
Definition login_outcome : M B E bool :=
  sleep 4 ;;
  title ;;
  current_url ;;
  log INFO "After login, page title: {driver.title}, URL: {driver.current_url}" ;;
  page_title <- title ;;
  if contains "Login" page_title
  then log ERROR "Still on login page after clicking login button" ;;
       ret false
  else
    url <- current_url ;;
    if contains "login" (lower url)
    then log ERROR "Still on login page after clicking login button" ;;
         ret false
    else log INFO "Successfully logged in to CoCoRaHS" ;;
         ret true.

(** Lines 182-187: the handler of the function's [try]. *)
Definition login_failed (e : Exn) : M B E bool :=
  log ERROR "Login failed: {str(e)}" ;;
  log ERROR "Exception type: {type(e).__name__}" ;;
  log ERROR "{traceback.format_exc()}" ;;
  ret false.

Definition login_to_cocorahs : M B E bool :=
  try_except
    (clicked <- login_click ;;
     if clicked then login_outcome else ret false)
    login_failed.

(** *** navigate_to_precip_form *)

Definition navigate_to_precip_form : M B E bool :=
  try_except
    (log INFO "Navigating to precipitation report form..." ;;
     url <- current_url ;;
     log INFO "Current URL: {current_url}" ;;
     (if negb (contains "DailyPrecipReport" url)
      then log INFO
             "Not on precip form page, navigating to {COCORAHS_SUBMIT_URL}" ;;
           get COCORAHS_SUBMIT_URL
      else ret tt) ;;
     sleep 3 ;;
     try_except
       (find_elements TAG_NAME "input" ;;
        find_elements TAG_NAME "select" ;;
        log INFO
          "Found {len(inputs)} input fields and {len(selects)} select dropdowns on form page")
       (fun _ => log WARNING "Could not enumerate form elements: {str(e)}") ;;
     log INFO "Precipitation form page loaded" ;;
     ret true)
    (fun _ =>
       log ERROR "Failed to navigate to form: {str(e)}" ;;
       log ERROR "{traceback.format_exc()}" ;;
       ret false).

(** *** select_station *)

Definition select_station : M B E bool :=
  log INFO
    "Station {COCORAHS_STATION} is locked to user login, skipping selection" ;;
  ret true.

(** *** fill_form_fields *)

(** Lines 234-253: wait, then log the inputs of the form. *)
Definition fill_enumerate : M B E unit :=
  log INFO "Filling form fields..." ;;
  sleep 2 ;;
  inputs <- find_elements TAG_NAME "input" ;;
  find_elements TAG_NAME "select" ;;
  find_elements TAG_NAME "textarea" ;;
  log INFO
    "Found {len(inputs)} inputs, {len(selects)} selects, {len(textareas)} textareas on form" ;;
  log INFO "Text/number input fields on form:" ;;
  for_each inputs (fun inp =>
    inp_type <- get_attribute inp "type" ;;
    if negb (attr_is inp_type "hidden" || attr_is inp_type "submit"
             || attr_is inp_type "checkbox" || attr_is inp_type "button")
    then
      get_attribute inp "id" ;;
      get_attribute inp "name" ;;
      get_attribute inp "placeholder" ;;
      log INFO
        "  [{idx}] type={inp_type}, id='{inp_id}', name='{inp_name}', placeholder='{inp_placeholder}'"
    else ret tt).

(** Lines 257-261: the five strings made from the report's timestamp. *)
Record Rendered := {
  r_month : string; r_day : string; r_year : string;
  r_hour : string; r_minute : string
}.

Definition render (report_datetime : datetime) : Rendered :=
  {| r_month := zfill 2 (str_int (month report_datetime));
     r_day := zfill 2 (str_int (day report_datetime));
     r_year := str_int (year report_datetime);
     r_hour := zfill 2 (str_int (hour report_datetime));
     r_minute := zfill 2 (str_int (minute report_datetime)) |}.

(** Line 265: [f"{month}/{day}/{year}"] *)
Definition render_date (report_datetime : datetime) : string :=
  let r := render report_datetime in
  r_month r ++ "/" ++ r_day r ++ "/" ++ r_year r.

(** Line 266: [f"{hour}:{minute}"] *)
Definition render_time (report_datetime : datetime) : string :=
  let r := render report_datetime in
  r_hour r ++ ":" ++ r_minute r.

(** Lines 264-272: field name, CoCoRaHS element id, rendered value, in
    the order of the dict literal. *)
Definition fields_to_fill (report_datetime : datetime)
    (form_data : gmap string PyVal) : list (string * (string * string)) :=
  [ ("date", ("frmReport_dcObsDate_di", render_date report_datetime));
    ("time", ("frmReport_tObsTime_txtTime", render_time report_datetime));
    ("gaugeCatch", ("frmReport_prTotalPrecip__ctl1_tbPrecip",
       str (dict_get_default form_data "gaugeCatch" (PyStr ""))));
    ("snowfallAmount", ("frmReport_prNewSnowAmount__ctl1_tbPrecip",
       str (dict_get_default form_data "snowfallAmount" (PyStr ""))));
    ("snowfallSWE", ("frmReport_prSnowCore__ctl1_tbPrecip",
       str (dict_get_default form_data "snowfallSWE" (PyStr ""))));
    ("snowpackDepth", ("frmReport_prTotalSnowDepth__ctl1_tbPrecip",
       str (dict_get_default form_data "snowpackDepth" (PyStr ""))));
    ("snowpackSWE", ("frmReport_prSWE__ctl1_tbPrecip",
       str (dict_get_default form_data "snowpackSWE" (PyStr "")))) ].

(** Line 276: [field_value and field_value.strip()] *)
Definition populated (field_value : string) : bool :=
  str_truthy field_value && str_truthy (strip field_value).

(** Lines 277-283: one field, inside its own [try]. *)
Definition fill_one (entry : string * (string * string)) : M B E unit :=
  let '(field_name, (field_id, field_value)) := entry in
  if populated field_value
  then
    try_except
      (field <- find_element ID field_id ;;
       clear field ;;
       send_keys field field_value ;;
       log INFO "Filled {field_name}: {field_value}")
      (fun _ =>
         log WARNING "Could not fill {field_name} (ID: {field_id}): {str(e)}")
  else ret tt.

(** Lines 286-293 *)
Definition fill_notes (form_data : gmap string PyVal) : M B E unit :=
  if truthy (dict_get form_data "additionalNotes")
  then
    try_except
      (notes_field <- find_element ID "frmReport_txtNotes" ;;
       clear notes_field ;;
       notes <- lift (dict_item form_data "additionalNotes") ;;
       send_keys notes_field (str notes) ;;
       log INFO "Filled Notes: {form_data['additionalNotes']}")
      (fun _ => log WARNING "Could not fill notes field: {str(e)}")
  else ret tt.

(** Lines 298-302 *)
Definition fill_failed (e : Exn) : M B E bool :=
  log ERROR "Error filling form: {str(e)}" ;;
  log ERROR "{traceback.format_exc()}" ;;
  ret false.

(** Line 256: [datetime.fromisoformat(form_data['reportDate'])] *)
Definition parse_report_date (form_data : gmap string PyVal)
    : Outcome datetime :=
  match dict_item form_data "reportDate" with
  | Ok report_date => fromisoformat report_date
  | Raise e => Raise e
  end.

Definition fill_form_fields (form_data : gmap string PyVal) : M B E bool :=
  try_except
    (fill_enumerate ;;
     report_datetime <- lift (parse_report_date form_data) ;;
     for_each (fields_to_fill report_datetime form_data) fill_one ;;
     fill_notes form_data ;;
     log INFO "Form fields filled successfully" ;;
     ret true)
    fill_failed.

(** *** submit_form *)

(** Lines 321-331: the first button of type submit or whose text
    contains "submit". *)
Fixpoint scan_buttons (all_buttons : list E) : M B E (option E) :=
  match all_buttons with
  | [] => ret None
  | btn :: rest =>
      btn_text <- text btn ;;
      btn_type <- get_attribute btn "type" ;;
      get_attribute btn "id" ;;
      get_attribute btn "name" ;;
      log INFO
        "  Button: type='{btn_type}', text='{btn_text}', id='{btn_id}', name='{btn_name}'" ;;
      if attr_is btn_type "submit"
         || contains "submit" (lower (strip btn_text))
      then log INFO "  -> Using this button as submit button" ;;
           ret (Some btn)
      else scan_buttons rest
  end.

(** Lines 335-342: the first input of type submit. *)
Fixpoint scan_inputs (all_inputs : list E) : M B E (option E) :=
  match all_inputs with
  | [] => ret None
  | inp :: rest =>
      inp_type <- get_attribute inp "type" ;;
      if attr_is inp_type "submit"
      then get_attribute inp "id" ;;
           get_attribute inp "value" ;;
           log INFO "Found submit input: id='{inp_id}', value='{inp_value}'" ;;
           ret (Some inp)
      else scan_inputs rest
  end.

(** Lines 308-349: everything up to and including the click on the
    submit control.  [false] is the [return False] of line 346. *)
Definition submit_click : M B E bool :=
  log INFO "Submitting form..." ;;
  sleep 2 ;;
  all_buttons <- find_elements TAG_NAME "button" ;;
  all_inputs <- find_elements TAG_NAME "input" ;;
  log INFO
    "Found {len(all_buttons)} button elements and {len(all_inputs)} input elements" ;;
  log INFO "Searching for submit button..." ;;
  submit_button <- scan_buttons all_buttons ;;
  submit_button <-
    match submit_button with
    | Some b => ret (Some b)
    | None => scan_inputs all_inputs
    end ;;
  match submit_button with
  | None => log ERROR "Could not find submit button" ;; ret false
  | Some submit_button =>
      log INFO "Clicking submit button" ;;
      click submit_button ;;
      ret true
  end.

(** Lines 351-381: wait, then classify the page.  The two inner
    [try ... except: pass] blocks yield whether their [return] was
    taken. *)
Definition submit_outcome : M B E bool :=
  sleep 3 ;;
  title ;;
  current_url ;;
  log INFO
    "After submission, page title: {driver.title}, URL: {driver.current_url}" ;;
  succeeded <-
    try_except
      (success_elements <- find_elements CLASS_NAME "successmessage" ;;
       if nonempty success_elements
       then log INFO "Success message found on page" ;; ret true
       else ret false)
      (fun _ => ret false) ;;
  if succeeded then ret true else
  url <- current_url ;;
  if negb (contains "DailyPrecipReport" url)
  then log INFO "Redirected after submission, likely successful" ;;
       ret true
  else
    rejected <-
      try_except
        (error_messages <- find_elements CLASS_NAME "errormessage" ;;
         if nonempty error_messages
         then
           for_each error_messages (fun e => text e ;; ret tt) ;;
           log WARNING
             "Error messages found: {[e.text for e in error_messages]}" ;;
           ret true
         else ret false)
        (fun _ => ret false) ;;
    if rejected then ret false
    else log INFO "Form submitted successfully" ;;
         ret true.

(** Lines 383-387 *)
Definition submit_failed (e : Exn) : M B E bool :=
  log ERROR "Failed to submit form: {str(e)}" ;;
  log ERROR "{traceback.format_exc()}" ;;
  ret false.

Definition submit_form : M B E bool :=
  try_except
    (clicked <- submit_click ;;
     if clicked then submit_outcome else ret false)
    submit_failed.
End Stages.

(** *** submit_cocorahs *)

(** What [jsonify(...), status] hands back to the caller. *)
Record Response := {
  success : bool;
  message : string;
  status : nat
}.

Definition failure (msg : string) (code : nat) : Response :=
  {| success := false; message := msg; status := code |}.

Section Orchestrator.
Context {B E : Type} {drv : WebDriver B E}.

(** The five stages the orchestrator calls, kept abstract here so that
    its control flow can be studied for any behaviour of a stage,
    raising included. *)
Variables (login navigate select : M B E bool).
Variable fill : gmap string PyVal -> M B E bool.
Variable submit : M B E bool.

(** Lines 410-449: the body of the inner [try]. *)
Definition run_stages (form_data : gmap string PyVal) : M B E Response :=
  ok <- login ;;
  if negb ok then ret (failure "Failed to log in to CoCoRaHS" 401) else
  ok <- navigate ;;
  if negb ok
  then ret (failure "Failed to navigate to precipitation report form" 400)
  else
  ok <- select ;;
  if negb ok
  then ret (failure ("Failed to select station " ++ COCORAHS_STATION) 400)
  else
  ok <- fill form_data ;;
  if negb ok then ret (failure "Failed to fill form fields" 400) else
  ok <- submit ;;
  if negb ok then ret (failure "Failed to submit form to CoCoRaHS" 400) else
  log INFO "Data successfully submitted to CoCoRaHS" ;;
  ret {| success := true;
         message :=
           "Report successfully submitted to CoCoRaHS for station VT-CL-14";
         status := 200 |}.

(** Lines 455-460: the outer handler. *)
Definition server_error (e : Exn) (t : list (Event E))
    : Response * list (Event E) :=
  (failure ("Server error: " ++ exn_str e) 500,
   (t ++ [Log ERROR "Unexpected error: {str(e)}"])%list).

(** Line 397: the first record of every run. *)
Definition received : Event E :=
  Log INFO "Received form data: {json.dumps(form_data, indent=2)}".

(** The world in which the stages start: a browser just launched. *)
Definition session (driver : B) : World B E :=
  {| browser := driver; trace := [received; Launch] |}.

(** One request.  [chrome] is what [webdriver.Chrome(options)] yields
    in [setup_driver]: a fresh browser, or an exception that
    [setup_driver] logs and raises again.  The result is the response
    and the trace of the run. *)
Definition submit_cocorahs_with (chrome : Outcome B)
    (form_data : gmap string PyVal) : Response * list (Event E) :=
  if negb (truthy (dict_get form_data "reportDate"))
  then (failure "Report date is required" 400, [received])
  else
    match chrome with
    | Raise e =>
        server_error e
          [received; Launch;
           Log ERROR "Failed to initialize WebDriver: {str(e)}"]
    | Ok driver =>
        match try_finally (run_stages form_data) quit (session driver) with
        | (Ok response, w) => (response, trace w)
        | (Raise e, w) => server_error e (trace w)
        end
    end.
End Orchestrator.

Definition submit_cocorahs {B E : Type} {drv : WebDriver B E}
    (chrome : Outcome B) (form_data : gmap string PyVal)
    : Response * list (Event E) :=
  submit_cocorahs_with login_to_cocorahs navigate_to_precip_form
    select_station fill_form_fields submit_form chrome form_data.

(** ** A small concrete browser

    Pages are lists of elements; a site says which page a URL serves and
    where a click leads.  The page a click leads to loads during the
    next sleep.  Only [find_element] can fail here. *)

Module Toy.

Record Elem := {
  tag : string; id : string; name : string; type : string;
  class : string; inner_text : string
}.

Record Page := { url : string; page_title : string; dom : list Elem }.

Record Site := {
  serve : string -> Page;
  follow : Page -> Elem -> option Page
}.

Record Browser := { page : Page; pending : option Page }.

Definition no_such_element : Exn :=
  {| exn_class := "NoSuchElementException";
     exn_str := "Message: no such element: Unable to locate element" |}.

Definition css (selector : string) (e : Elem) : bool :=
  if String.eqb selector "input[type='text']"
  then String.eqb (tag e) "input" && String.eqb (type e) "text"
  else if String.eqb selector "input[type='password']"
  then String.eqb (tag e) "input" && String.eqb (type e) "password"
  else if String.eqb selector "button[type='submit']"
  then String.eqb (tag e) "button" && String.eqb (type e) "submit"
  else false.

Definition matches (how : By) (value : string) (e : Elem) : bool :=
  match how with
  | ID => String.eqb (id e) value
  | NAME => String.eqb (name e) value
  | TAG_NAME => String.eqb (tag e) value
  | CLASS_NAME => String.eqb (class e) value
  | CSS_SELECTOR => css value e
  | _ => false
  end.

Definition select_all (how : By) (value : string) (b : Browser) : list Elem :=
  filter (fun e => matches how value e = true) (dom (page b)).

Definition attribute (e : Elem) (attr : string) : option string :=
  if String.eqb attr "id" then Some (id e)
  else if String.eqb attr "name" then Some (name e)
  else if String.eqb attr "type" then Some (type e)
  else if String.eqb attr "class" then Some (class e)
  else None.

#[export] Instance driver (s : Site) : WebDriver Browser Elem := {|
  drv_get := fun url _ => (Ok tt, {| page := serve s url; pending := None |});
  drv_find_elements := fun how value b => Ok (select_all how value b);
  drv_find_element := fun how value b =>
    match select_all how value b with
    | e :: _ => Ok e
    | [] => Raise no_such_element
    end;
  drv_title := fun b => Ok (page_title (page b));
  drv_current_url := fun b => Ok (url (page b));
  drv_quit := fun b => b;
  drv_wait := fun _ b =>
    match pending b with
    | Some p => {| page := p; pending := None |}
    | None => b
    end;
  elt_get_attribute := fun e attr _ => Ok (attribute e attr);
  elt_text := fun e _ => Ok (inner_text e);
  elt_clear := fun _ b => (Ok tt, b);
  elt_send_keys := fun _ _ b => (Ok tt, b);
  elt_click := fun e b =>
    (Ok tt, {| page := page b; pending := follow s (page b) e |})
|}.

Definition input (i n t : string) : Elem :=
  {| tag := "input"; id := i; name := n; type := t; class := "";
     inner_text := "" |}.

Definition blank : Page :=
  {| url := "about:blank"; page_title := ""; dom := [] |}.

(** The login page: the user field answers to the second strategy of
    [username_selectors] only, the login control is an input. *)
Definition login_page : Page :=
  {| url := COCORAHS_LOGIN_URL; page_title := "CoCoRaHS - Login";
     dom := [ input "u" "username" "text";
              input "p" "Password" "password";
              input "btnLogin" "btnLogin" "submit" ] |}.

(** The report form, without the snow-depth field. *)
Definition form_page : Page :=
  {| url := COCORAHS_SUBMIT_URL; page_title := "Daily Precipitation Report";
     dom := [ input "frmReport_dcObsDate_di" "date" "text";
              input "frmReport_tObsTime_txtTime" "time" "text";
              input "frmReport_prTotalPrecip__ctl1_tbPrecip" "precip" "text";
              input "frmReport_btn_Submit" "submit" "submit" ] |}.

Definition done_page : Page :=
  {| url := "https://www.cocorahs.org/Admin/MyDataEntry/ViewReport.aspx";
     page_title := "Report Saved"; dom := [] |}.

(** The form again after a submit, showing a success banner and an
    error banner at once. *)
Definition banner (cls msg : string) : Elem :=
  {| tag := "div"; id := ""; name := ""; type := ""; class := cls;
     inner_text := msg |}.

Definition mixed_page : Page :=
  {| url := COCORAHS_SUBMIT_URL; page_title := "Daily Precipitation Report";
     dom := [ banner "successmessage" "Your report was saved.";
              banner "errormessage" "Snow depth looks unusual." ] |}.

(** The portal: the login control leads to the form, the submit control
    to [after_submit]. *)
Definition portal_with (after_submit : Page) : Site := {|
  serve := fun u =>
    if String.eqb u COCORAHS_LOGIN_URL then login_page
    else if String.eqb u COCORAHS_SUBMIT_URL then form_page
    else blank;
  follow := fun p e =>
    if String.eqb (id e) "btnLogin" then Some form_page
    else if String.eqb (id e) "frmReport_btn_Submit" then Some after_submit
    else None
|}.

Definition portal : Site := portal_with done_page.

(** The portal when it serves nothing. *)
Definition down : Site := {|
  serve := fun _ => blank;
  follow := fun _ _ => None
|}.

Definition fresh : Browser := {| page := blank; pending := None |}.

(** A world whose browser shows page [p]. *)
Definition showing (p : Page) : World Browser Elem :=
  {| browser := {| page := p; pending := None |}; trace := [] |}.

Definition report (date : string) (extra : list (string * PyVal))
    : gmap string PyVal :=
  list_to_map (("reportDate", PyStr date) :: extra).

(** A form with two buttons before its submit input; the second
    button says "submit" in capitals. *)
Definition button (i label : string) : Elem :=
  {| tag := "button"; id := i; name := ""; type := "button"; class := "";
     inner_text := label |}.

Definition button_page : Page :=
  {| url := COCORAHS_SUBMIT_URL; page_title := "Daily Precipitation Report";
     dom := [ button "btnCancel" "Cancel";
              button "btnSend" "  SUBMIT report ";
              input "frmReport_btn_Submit" "submit" "submit" ] |}.

(** The form again after a submit, showing an error banner only. *)
Definition rejected_page : Page :=
  {| url := COCORAHS_SUBMIT_URL; page_title := "Daily Precipitation Report";
     dom := [ banner "errormessage" "Observation time is required." ] |}.

End Toy.

(** * Properties *)

Open Scope list_scope.

(** ** Vocabulary of the statements *)

(** The set of optional attributes of a report. *)
Definition optional_keys : list string :=
  [ "gaugeCatch"; "snowfallAmount"; "snowfallSWE"; "snowpackDepth";
    "snowpackSWE"; "additionalNotes" ].

(** The three controls [login_to_cocorahs] looks up. *)
Inductive Field := Username | Password | LoginButton.

(** The strategies tried for a control, in the order of the source: its
    selector list, then (lines 107 and 133) its CSS fallback. *)
Definition strategies (f : Field) : list (By * string) :=
  match f with
  | Username => username_selectors ++ [(CSS_SELECTOR, "input[type='text']")]
  | Password =>
      password_selectors ++ [(CSS_SELECTOR, "input[type='password']")]
  | LoginButton => login_button_selectors
  end.

Section Vocabulary.
Context {B E : Type} {drv : WebDriver B E}.

Definition locate (f : Field) : M B E (option E) :=
  match f with
  | Username => locate_username
  | Password => locate_password
  | LoginButton => locate_login_button
  end.

(** The [find_element] calls of a trace, in order. *)
Definition lookups (t : list (Event E)) : list (By * string) :=
  omap (fun ev => match ev with
                  | FindElement how value => Some (how, value)
                  | _ => None
                  end) t.

(** A strategy whose target is absent: [find_element] raises. *)
Definition absent (b : B) (s : By * string) : Prop :=
  exists e, drv_find_element s.1 s.2 b = Raise e.

(** Line 175: the page still looks like the login page. *)
Definition indicates_login (page_title url : string) : bool :=
  contains "Login" page_title || contains "login" (lower url).

(** The priority order as the specification words it: (a) a success
    element is present: success; (b) else the URL has left the form's
    path: success; (c) else an error element is present: failure;
    (d) else success. *)
Definition classify (success_elements : list E) (url : string)
    (error_messages : list E) : bool :=
  if nonempty success_elements then true
  else if negb (contains "DailyPrecipReport" url) then true
  else if nonempty error_messages then false
  else true.

(** The element ids the fill loop has to look up for a mapping, then
    for the notes. *)
Definition due (entries : list (string * (string * string)))
    : list (By * string) :=
  map (fun entry => (ID, entry.2.1))
      (filter (fun entry => populated entry.2.2 = true) entries).


(** The record [select_station] leaves in the trace. *)
Definition station_locked : Event E :=
  Log INFO
    "Station {COCORAHS_STATION} is locked to user login, skipping selection".

End Vocabulary.

(** ** Vocabulary of the further properties *)

(** The response of the last line of the inner [try]. *)
Definition submitted : Response :=
  {| success := true;
     message :=
       "Report successfully submitted to CoCoRaHS for station VT-CL-14";
     status := 200 |}.

(** What the body of the inner [try] can answer with the stages of the
    backend. *)
Definition stage_responses : list Response :=
  [ failure "Failed to log in to CoCoRaHS" 401;
    failure "Failed to navigate to precipitation report form" 400;
    failure "Failed to fill form fields" 400;
    failure "Failed to submit form to CoCoRaHS" 400;
    submitted ].


(** The optional numeric attributes and the ids of their elements
    (lines 267-271). *)
Definition optional_fields : list (string * string) :=
  [ ("gaugeCatch", "frmReport_prTotalPrecip__ctl1_tbPrecip");
    ("snowfallAmount", "frmReport_prNewSnowAmount__ctl1_tbPrecip");
    ("snowfallSWE", "frmReport_prSnowCore__ctl1_tbPrecip");
    ("snowpackDepth", "frmReport_prTotalSnowDepth__ctl1_tbPrecip");
    ("snowpackSWE", "frmReport_prSWE__ctl1_tbPrecip") ].

(** The values of the populated entries of a mapping, in order. *)
Definition values (entries : list (string * (string * string)))
    : list string :=
  map (fun entry => entry.2.2)
      (filter (fun entry => populated entry.2.2 = true) entries).

(** What the notes block types, if anything. *)
Definition notes_value (form_data : gmap string PyVal) : list string :=
  if truthy (dict_get form_data "additionalNotes")
  then [str (dict_get form_data "additionalNotes")] else [].

Section Observations.
Context {B E : Type} {drv : WebDriver B E}.

(** [m] only adds to the trace, and only events that satisfy [P]. *)
Definition emits {A} (P : Event E -> bool) (m : M B E A) : Prop :=
  forall w, exists t, trace (m w).2 = trace w ++ t /\ forallb P t = true.

(** Reads, sleeps and log records: events that leave the page as it is. *)
Definition passive (ev : Event E) : bool :=
  match ev with
  | Launch | Get _ | Quit | Clear _ | SendKeys _ _ | Click _ => false
  | _ => true
  end.

(** What a stage may do between the launch of the browser and its
    release: anything but launch or quit, and [get] only on the two
    configured URLs. *)
Definition in_session (ev : Event E) : bool :=
  match ev with
  | Launch | Quit => false
  | Get url => String.eqb url COCORAHS_LOGIN_URL
               || String.eqb url COCORAHS_SUBMIT_URL
  | _ => true
  end.

(** Anything but writing into an element or clicking one. *)
Definition hands_off (ev : Event E) : bool :=
  match ev with
  | Clear _ | SendKeys _ _ | Click _ => false
  | _ => true
  end.

(** The writes and clicks of a trace, in order. *)
Definition actions (t : list (Event E)) : list (Event E) :=
  List.filter (fun ev => negb (hands_off ev)) t.

(** What the fill stage may do: no click, no navigation. *)
Definition fills_only (ev : Event E) : bool :=
  match ev with
  | Launch | Quit | Get _ | Click _ => false
  | _ => true
  end.
(** The URLs a trace navigates to, in order. *)
Definition gets (t : list (Event E)) : list string :=
  omap (fun ev => match ev with Get url => Some url | _ => None end) t.

(** An element whose text and attributes can be read. *)
Definition readable (b : B) (e : E) : Prop :=
  (exists s, elt_text e b = Ok s)
  /\ forall attr, exists a, elt_get_attribute e attr b = Ok a.

(** Line 328: the test a button has to pass. *)
Definition button_qualifies (b : B) (btn : E) : bool :=
  match elt_text btn b, elt_get_attribute btn "type" b with
  | Ok btn_text, Ok btn_type =>
      attr_is btn_type "submit" || contains "submit" (lower (strip btn_text))
  | _, _ => false
  end.

(** Line 337: the test an input has to pass. *)
Definition input_qualifies (b : B) (inp : E) : bool :=
  match elt_get_attribute inp "type" b with
  | Ok inp_type => attr_is inp_type "submit"
  | Raise _ => false
  end.

(** The control lines 321-342 settle on: the first qualifying button,
    or else the first qualifying input. *)
Definition submit_control (b : B) (buttons inputs : list E) : option E :=
  match List.find (button_qualifies b) buttons with
  | Some btn => Some btn
  | None => List.find (input_qualifies b) inputs
  end.

(** Lines 366-381, after the check for a success message. *)
Definition after_success_check : M B E bool :=
  url <- current_url ;;
  if negb (contains "DailyPrecipReport" url)
  then log INFO "Redirected after submission, likely successful" ;;
       ret true
  else
    rejected <-
      try_except
        (error_messages <- find_elements CLASS_NAME "errormessage" ;;
         if nonempty error_messages
         then
           for_each error_messages (fun e => text e ;; ret tt) ;;
           log WARNING
             "Error messages found: {[e.text for e in error_messages]}" ;;
           ret true
         else ret false)
        (fun _ => ret false) ;;
    if rejected then ret false
    else log INFO "Form submitted successfully" ;;
         ret true.

(** The strings a trace types with [send_keys], in order. *)
Definition typed (t : list (Event E)) : list string :=
  omap (fun ev => match ev with SendKeys _ keys => Some keys | _ => None end)
       t.
End Observations.

(** ** Running a computation step by step *)

Section Steps.
Context {B E : Type}.

Lemma bind_ok {A A'} (m : M B E A) (k : A -> M B E A') (w : World B E)
    (a : A) (w' : World B E) :
  m w = (Ok a, w') -> bind m k w = k a w'.
Proof. intros H. unfold bind. by rewrite H. Qed.

Lemma bind_raise {A A'} (m : M B E A) (k : A -> M B E A') (w : World B E)
    (e : Exn) (w' : World B E) :
  m w = (Raise e, w') -> bind m k w = (Raise e, w').
Proof. intros H. unfold bind. by rewrite H. Qed.

End Steps.

(** ** Strings *)

Lemma rstrip_keeps_nonspace (a : string) (c : ascii) (b : string) :
  is_space c = false -> rstrip (a ++ String c b)%string <> EmptyString.
Proof.
  intros Hc. induction a as [|x a IH]; simpl.
  - destruct (rstrip b); [rewrite Hc|]; discriminate.
  - destruct (rstrip (a ++ String c b)%string); [contradiction|discriminate].
Qed.

Lemma lstrip_keeps_nonspace (a : string) (c : ascii) (b : string) :
  is_space c = false -> exists a', lstrip (a ++ String c b)%string = (a' ++ String c b)%string.
Proof.
  intros Hc. induction a as [|x a IH]; simpl.
  - rewrite Hc. by exists EmptyString.
  - destruct (is_space x); [exact IH|]. by exists (String x a).
Qed.

Lemma populated_nonspace (a : string) (c : ascii) (b : string) :
  is_space c = false -> populated (a ++ String c b)%string = true.
Proof.
  intros Hc. unfold populated, strip.
  destruct (lstrip_keeps_nonspace a c b Hc) as [a' ->].
  pose proof (rstrip_keeps_nonspace a' c b Hc) as Hr.
  destruct (rstrip (a' ++ String c b)%string); [contradiction|].
  by destruct a.
Qed.

Lemma populated_render_date (dt : datetime) : populated (render_date dt) = true.
Proof. unfold render_date. by apply populated_nonspace. Qed.

Lemma populated_render_time (dt : datetime) : populated (render_time dt) = true.
Proof. unfold render_time. by apply populated_nonspace. Qed.

Lemma small_cases (n : Z) :
  (1 <= n <= 9)%Z ->
  n = 1%Z \/ n = 2%Z \/ n = 3%Z \/ n = 4%Z \/ n = 5%Z \/ n = 6%Z
  \/ n = 7%Z \/ n = 8%Z \/ n = 9%Z.
Proof. lia. Qed.

Lemma zfill_one_digit (n : Z) :
  (1 <= n <= 9)%Z ->
  zfill 2 (str_int n) = String "0" (str_int n) /\ String.length (str_int n) = 1.
Proof.
  intros H. destruct (small_cases n H) as [->|[->|[->|[->|[->|[->|[->|[->| ->]]]]]]]];
    by vm_compute.
Qed.

(** C6. Rendering the timestamp 2024-01-05T07:30 gives the date string
    01/05/2024 and the time string 07:30; and for every timestamp, a
    month, day, hour or minute between 1 and 9 is rendered as two
    characters, a zero followed by its digit. *)
Theorem timestamp_rendering_zero_pads :
  (exists dt, fromisoformat (PyStr "2024-01-05T07:30") = Ok dt
              /\ render_date dt = "01/05/2024" /\ render_time dt = "07:30")
  /\ forall dt : datetime,
       ((1 <= month dt <= 9)%Z ->
          r_month (render dt) = String "0" (str_int (month dt))
          /\ String.length (r_month (render dt)) = 2)
       /\ ((1 <= day dt <= 9)%Z ->
          r_day (render dt) = String "0" (str_int (day dt))
          /\ String.length (r_day (render dt)) = 2)
       /\ ((1 <= hour dt <= 9)%Z ->
          r_hour (render dt) = String "0" (str_int (hour dt))
          /\ String.length (r_hour (render dt)) = 2)
       /\ ((1 <= minute dt <= 9)%Z ->
          r_minute (render dt) = String "0" (str_int (minute dt))
          /\ String.length (r_minute (render dt)) = 2).
Proof.
  split.
  - eexists. by vm_compute.
  - intros dt.
    split; [|split; [|split]]; intros H; simpl;
      destruct (zfill_one_digit _ H) as [-> Hl]; simpl; by rewrite Hl.
Qed.

Lemma timestamp_rendering_zero_pads_witness :
  let dt := {| year := 2024; month := 1; day := 5; hour := 7; minute := 9;
               second := 0; microsecond := 0 |} in
  r_month (render dt) = "01" /\ r_day (render dt) = "05"
  /\ r_hour (render dt) = "07" /\ r_minute (render dt) = "09".
Proof.
  intros dt.
  destruct timestamp_rendering_zero_pads as [_ H].
  destruct (H dt) as (Hm & Hd & Hh & Hmi).
  split; [|split; [|split]].
  - apply Hm. simpl. lia.
  - apply Hd. simpl. lia.
  - apply Hh. simpl. lia.
  - apply Hmi. simpl. lia.
Defined.

(** C5. For every report none of whose optional attributes (gauge
    catch, snowfall amount, snowfall SWE, snowpack depth, snowpack SWE,
    notes) is present, and whatever timestamp [dt] its date parses to:
    the entries of the mapping whose value is non-empty after stripping
    are exactly two, date and time; every other entry has the empty
    string as value; and the notes are not filled. *)
Theorem bare_report_populates_date_and_time
    (form_data : gmap string PyVal) (dt : datetime) :
  Forall (fun key => form_data !! key = None) optional_keys ->
  filter (fun entry => populated entry.2.2 = true) (fields_to_fill dt form_data)
    = [ ("date", ("frmReport_dcObsDate_di", render_date dt));
        ("time", ("frmReport_tObsTime_txtTime", render_time dt)) ]
  /\ (forall field_name field_id field_value,
        (field_name, (field_id, field_value)) ∈ fields_to_fill dt form_data ->
        field_name <> "date" -> field_name <> "time" ->
        field_value = "")
  /\ truthy (dict_get form_data "additionalNotes") = false.
Proof.
  intros Habs. unfold optional_keys in Habs.
  repeat match goal with
         | H : Forall _ (_ :: _) |- _ => apply Forall_cons in H as [? H]
         end.
  unfold fields_to_fill, dict_get_default, dict_get.
  repeat match goal with H : form_data !! _ = None |- _ => rewrite H; clear H end.
  simpl. split; [|split; [|done]].
  - rewrite !filter_cons. simpl.
    rewrite populated_render_date, populated_render_time. simpl.
    repeat (rewrite decide_True by done).
    repeat (rewrite decide_False by (unfold populated; simpl; done)).
    by rewrite filter_nil.
  - intros field_name field_id field_value Hin Hd Ht.
    repeat (apply elem_of_cons in Hin as [Hin|Hin];
            [by (injection Hin as -> -> ->)|]).
    by apply elem_of_nil in Hin.
Qed.
(** ** The element locator *)

Lemma split_before_last {A} (pre post l : list A) (s c : A) :
  pre ++ s :: post = l ++ [c] ->
  (exists post', post = post' ++ [c] /\ l = pre ++ s :: post')
  \/ (pre = l /\ s = c /\ post = []).
Proof.
  destruct post as [|x post _] using rev_ind; intros Heq.
  - apply app_inj_tail in Heq as [-> ->]. by right.
  - left. exists post.
    change (pre ++ s :: post ++ [x]) with (pre ++ (s :: post) ++ [x]) in Heq.
    rewrite app_assoc in Heq. by apply app_inj_tail in Heq as [<- ->].
Qed.

Section Locator.
Context {B E : Type} {drv : WebDriver B E}.

Lemma lookups_app (t1 t2 : list (Event E)) :
  lookups (t1 ++ t2) = lookups t1 ++ lookups t2.
Proof. apply omap_app. Qed.

Lemma first_match_skip (found : string) (s : By * string)
    (rest : list (By * string)) (w : World B E) :
  absent (browser w) s ->
  first_match found (s :: rest) w
  = first_match found rest (emit (FindElement s.1 s.2) w).
Proof.
  intros [e He]. destruct s as [how value]. simpl in *.
  unfold bind at 1. unfold try_except, bind at 1.
  unfold find_element, query. by rewrite He.
Qed.

Lemma first_match_hit (found : string) (how : By) (value : string)
    (rest : list (By * string)) (w : World B E) (field : E) :
  drv_find_element how value (browser w) = Ok field ->
  first_match found ((how, value) :: rest) w
  = (Ok (Some field),
     emit (Log INFO found) (emit (FindElement how value) w)).
Proof.
  intros He. simpl.
  unfold bind at 1. unfold try_except, bind at 1.
  unfold find_element, query. by rewrite He.
Qed.

(** The loop stops at the first strategy that matches. *)
Lemma first_match_first_live (found : string)
    (pre : list (By * string)) (how : By) (value : string)
    (post : list (By * string)) (w : World B E) (field : E) :
  Forall (absent (browser w)) pre ->
  drv_find_element how value (browser w) = Ok field ->
  exists t,
    first_match found (pre ++ (how, value) :: post) w
    = (Ok (Some field), {| browser := browser w; trace := trace w ++ t |})
    /\ lookups t = pre ++ [(how, value)].
Proof.
  revert w. induction pre as [|s pre IH]; intros w Hpre Hhit.
  - rewrite app_nil_l, (first_match_hit _ _ _ _ _ _ Hhit).
    exists [FindElement how value; Log INFO found]. split; [|done].
    unfold emit. simpl. by rewrite <- app_assoc.
  - apply Forall_cons in Hpre as [Hs Hpre].
    rewrite <- app_comm_cons, (first_match_skip _ _ _ _ Hs).
    destruct (IH (emit (FindElement s.1 s.2) w) Hpre Hhit) as (t & -> & Ht).
    exists (FindElement s.1 s.2 :: t). simpl. rewrite <- app_assoc.
    split; [done|]. destruct s. simpl in *. by rewrite <- Ht.
Qed.

(** The loop leaves the field at [None] when no strategy matches. *)
Lemma first_match_none (found : string) (selectors : list (By * string))
    (w : World B E) :
  Forall (absent (browser w)) selectors ->
  exists t,
    first_match found selectors w
    = (Ok None, {| browser := browser w; trace := trace w ++ t |})
    /\ lookups t = selectors.
Proof.
  revert w. induction selectors as [|s sels IH]; intros w Habs.
  - exists []. simpl. rewrite app_nil_r. by destruct w.
  - apply Forall_cons in Habs as [Hs Habs].
    rewrite (first_match_skip _ _ _ _ Hs).
    destruct (IH (emit (FindElement s.1 s.2) w) Habs) as (t & -> & Ht).
    exists (FindElement s.1 s.2 :: t). simpl. rewrite <- app_assoc.
    split; [done|]. destruct s. simpl in *. by rewrite <- Ht.
Qed.

(** A list of strategies followed by a CSS fallback in its own [try]. *)
Lemma fallback_first_live (found found_css missing : string)
    (selectors : list (By * string)) (css : string)
    (pre : list (By * string)) (how : By) (value : string)
    (post : list (By * string)) (w : World B E) (field : E) :
  selectors ++ [(CSS_SELECTOR, css)] = pre ++ (how, value) :: post ->
  Forall (absent (browser w)) pre ->
  drv_find_element how value (browser w) = Ok field ->
  exists t,
    (r <- first_match found selectors ;;
     match r with
     | Some f => ret (Some f)
     | None =>
         try_except
           (f <- find_element CSS_SELECTOR css ;;
            log INFO found_css ;; ret (Some f))
           (fun _ => log ERROR missing ;; ret None)
     end) w
    = (Ok (Some field), {| browser := browser w; trace := trace w ++ t |})
    /\ lookups t = pre ++ [(how, value)].
Proof.
  intros Heq Hpre Hhit. symmetry in Heq.
  apply split_before_last in Heq as [(post' & -> & ->)|(-> & [= -> ->] & ->)].
  - destruct (first_match_first_live found pre how value post' w field
                Hpre Hhit) as (t & Hrun & Ht).
    exists t. unfold bind at 1. by rewrite Hrun.
  - destruct (first_match_none found selectors w Hpre) as (t & Hrun & Ht).
    exists (t ++ [FindElement CSS_SELECTOR css; Log INFO found_css]).
    unfold bind at 1. rewrite Hrun.
    unfold try_except, bind, find_element, query, log, ret, emit. simpl.
    rewrite Hhit. rewrite <- !app_assoc. split; [done|].
    rewrite lookups_app, Ht. done.
Qed.

(** C7. For each of the three controls, the lookup tries the strategies
    of the control in order and returns the match of the first one whose
    element is found: when the strategies before [(how, value)] all
    raise and [(how, value)] finds [field], the lookup returns [field],
    does not touch the browser, and the [find_element] calls it made are
    those of the strategies before, then [(how, value)], and none of the
    strategies after it. *)
Theorem locate_takes_first_live (f : Field)
    (pre : list (By * string)) (how : By) (value : string)
    (post : list (By * string)) (w : World B E) (field : E) :
  strategies f = pre ++ (how, value) :: post ->
  Forall (absent (browser w)) pre ->
  drv_find_element how value (browser w) = Ok field ->
  exists t,
    locate f w
    = (Ok (Some field), {| browser := browser w; trace := trace w ++ t |})
    /\ lookups t = pre ++ [(how, value)].
Proof.
  intros Heq Hpre Hhit. destruct f; simpl in Heq.
  - by eapply fallback_first_live.
  - by eapply fallback_first_live.
  - unfold locate, locate_login_button. rewrite Heq.
    destruct (first_match_first_live "Found login button using {selector}"
                pre how value post w field Hpre Hhit) as (t & Hrun & Ht).
    exists t. unfold bind at 1. by rewrite Hrun.
Qed.
End Locator.

(** ** Page-state classification after a click *)

Section Classification.
Context {B E : Type} {drv : WebDriver B E}.

(** C8. Once the login control has been clicked, and with the title
    and the URL of the page shown after the four-second wait readable,
    [login_to_cocorahs] returns [False] exactly when the title contains
    "Login" or the lower-cased URL contains "login", and [True] in every
    other case. *)
Theorem login_fails_iff_still_on_login (w w1 : World B E)
    (page_title url : string) :
  login_click w = (Ok true, w1) ->
  drv_title (drv_wait 4 (browser w1)) = Ok page_title ->
  drv_current_url (drv_wait 4 (browser w1)) = Ok url ->
  (login_to_cocorahs w).1 = Ok (negb (indicates_login page_title url)).
Proof.
  intros Hclick Ht Hu.
  unfold login_to_cocorahs, try_except, bind at 1. rewrite Hclick.
  unfold login_outcome, bind, sleep, title, current_url, query, log, ret,
    emit, indicates_login.
  simpl. rewrite Ht, Hu.
  destruct (contains "Login" page_title); simpl; [done|].
  rewrite Hu. by destruct (contains "login" (lower url)).
Qed.

Lemma read_texts (es : list E) (w : World B E) :
  Forall (fun e => exists s, elt_text e (browser w) = Ok s) es ->
  exists t,
    for_each es (fun e => text e ;; ret tt) w
    = (Ok tt, {| browser := browser w; trace := trace w ++ t |}).
Proof.
  revert w. induction es as [|e es IH]; intros w Hes.
  - exists []. simpl. rewrite app_nil_r. by destruct w.
  - apply Forall_cons in Hes as [[s Hs] Hes]. simpl.
    rewrite (bind_ok _ _ w tt (emit (Text e) w)).
    2: { unfold bind, text, query, ret. by rewrite Hs. }
    destruct (IH (emit (Text e) w) Hes) as (t & ->).
    exists (Text e :: t). simpl. by rewrite <- app_assoc.
Qed.

(** C1. Once the submit control has been clicked, and for every page
    shown after the three-second wait (its title, URL, success-message
    elements, error-message elements and their texts all readable),
    [submit_form] returns what the priority order gives: success if a
    success-message element is present, else success if the URL no longer
    contains the form's path, else failure if an error-message element is
    present, else success.  In particular a page with a success-message
    element classifies as success whatever error-message elements it
    shows. *)
Theorem submit_classifies_by_priority (w w1 : World B E)
    (page_title url : string) (success_elements error_messages : list E) :
  submit_click w = (Ok true, w1) ->
  let page := drv_wait 3 (browser w1) in
  drv_title page = Ok page_title ->
  drv_current_url page = Ok url ->
  drv_find_elements CLASS_NAME "successmessage" page = Ok success_elements ->
  drv_find_elements CLASS_NAME "errormessage" page = Ok error_messages ->
  Forall (fun e => exists s, elt_text e page = Ok s) error_messages ->
  (submit_form w).1 = Ok (classify success_elements url error_messages)
  /\ (nonempty success_elements = true -> (submit_form w).1 = Ok true).
Proof.
  intros Hclick page Ht Hu Hs He Htexts.
  assert ((submit_form w).1
          = Ok (classify success_elements url error_messages)) as Hmain.
  { unfold submit_form, try_except, bind at 1. rewrite Hclick.
    unfold submit_outcome, classify.
    unfold bind at 1. unfold sleep at 1.
    unfold bind at 1. unfold title at 1, query at 1. simpl. fold page.
    rewrite Ht.
    unfold bind at 1. unfold current_url at 1, query at 1. simpl. fold page.
    rewrite Hu.
    unfold bind at 1. unfold log at 1.
    unfold bind at 1. unfold try_except at 1, bind at 1.
    unfold find_elements at 1, query at 1. simpl. fold page. rewrite Hs.
    destruct (nonempty success_elements); [done|].
    unfold ret at 1. unfold ret at 1.
    unfold bind at 1. unfold current_url at 1, query at 1. simpl. fold page.
    rewrite Hu.
    destruct (contains "DailyPrecipReport" url); [|done]. simpl.
    unfold bind at 1. unfold try_except at 1, bind at 1.
    unfold find_elements at 1, query at 1. simpl. fold page. rewrite He.
    destruct (nonempty error_messages); [|done].
    unfold bind at 1.
    match goal with
    | |- context [for_each _ _ ?w0] =>
        destruct (read_texts error_messages w0 Htexts) as (t & ->)
    end.
    done. }
  split; [done|]. intros Hne. rewrite Hmain. unfold classify. by rewrite Hne.
Qed.
End Classification.

(** ** The fill stage *)

Section Fill.
Context {B E : Type} {drv : WebDriver B E}.







End Fill.

(** ** The orchestrator *)

Section Pipeline.
Context {B E : Type} {drv : WebDriver B E}.

Lemma always_quits {A} (body : M B E A) (w : World B E) :
  try_finally body quit w
  = ((body w).1, {| browser := drv_quit (browser (body w).2);
                    trace := trace (body w).2 ++ [Quit] |}).
Proof. unfold try_finally, quit. by destruct (body w). Qed.

(** A run that passed validation and got a browser is the body of the
    inner [try], then [quit], then the outer handler if the body raised. *)
Lemma run_with_session (login navigate select : M B E bool)
    (fill : gmap string PyVal -> M B E bool) (submit : M B E bool)
    (driver : B) (form_data : gmap string PyVal) :
  truthy (dict_get form_data "reportDate") = true ->
  submit_cocorahs_with login navigate select fill submit (Ok driver)
    form_data
  = match run_stages login navigate select fill submit form_data
            (session driver) with
    | (Ok response, w) => (response, trace w ++ [Quit])
    | (Raise e, w) => server_error e (trace w ++ [Quit])
    end.
Proof.
  intros Hdate. unfold submit_cocorahs_with. rewrite Hdate. simpl.
  rewrite always_quits.
  by destruct (run_stages _ _ _ _ _ _ _) as [[response|e] w].
Qed.

Lemma select_station_true (w : World B E) :
  select_station w = (Ok true, emit station_locked w).
Proof. reflexivity. Qed.

(** A [try] whose handler cannot raise cannot raise. *)
Lemma try_except_total {A} (body : M B E A) (handler : Exn -> M B E A)
    (w : World B E) :
  (forall e w', exists a w'', handler e w' = (Ok a, w'')) ->
  exists a w', try_except body handler w = (Ok a, w').
Proof.
  intros Hh. unfold try_except.
  destruct (body w) as [[a|e] w']; [by exists a, w'|apply Hh].
Qed.

Lemma login_total (w : World B E) :
  exists ok w', login_to_cocorahs w = (Ok ok, w').
Proof. apply try_except_total. intros e w'. by eexists _, _. Qed.

Lemma navigate_total (w : World B E) :
  exists ok w', navigate_to_precip_form w = (Ok ok, w').
Proof. apply try_except_total. intros e w'. by eexists _, _. Qed.

Lemma fill_total (form_data : gmap string PyVal) (w : World B E) :
  exists ok w', fill_form_fields form_data w = (Ok ok, w').
Proof. apply try_except_total. intros e w'. by eexists _, _. Qed.

Lemma submit_total (w : World B E) :
  exists ok w', submit_form w = (Ok ok, w').
Proof. apply try_except_total. intros e w'. by eexists _, _. Qed.

(** Every stage of the backend turns its own exceptions into [False]:
    with them the body of the inner [try] always returns a response. *)
Lemma stages_never_raise (form_data : gmap string PyVal) (w : World B E) :
  exists response w',
    run_stages login_to_cocorahs navigate_to_precip_form select_station
      fill_form_fields submit_form form_data w = (Ok response, w').
Proof.
  unfold run_stages.
  destruct (login_total w) as ([] & w1 & H1); rewrite (bind_ok _ _ _ _ _ H1);
    simpl; [|by eexists _, _].
  destruct (navigate_total w1) as ([] & w2 & H2);
    rewrite (bind_ok _ _ _ _ _ H2); simpl; [|by eexists _, _].
  rewrite (bind_ok _ _ _ _ _ (select_station_true w2)). simpl.
  destruct (fill_total form_data (emit station_locked w2)) as ([] & w4 & H4);
    rewrite (bind_ok _ _ _ _ _ H4); simpl; [|by eexists _, _].
  destruct (submit_total w4) as ([] & w5 & H5);
    rewrite (bind_ok _ _ _ _ _ H5); simpl; by eexists _, _.
Qed.

(** C2. For every run that passed validation and got a browser, and
    whatever the five stages do: if a stage returns [False] after every
    earlier stage returned [True], the run ends there (its trace is the
    trace up to the end of that stage, followed by [quit] only, so no
    later stage ran) and the response is a failure carrying the stage's
    message, with status 401 for the login and 400 for the later stages.
    [submit_cocorahs] is the instance with the five stages of the
    backend. *)
Theorem pipeline_halts_at_first_failure (login navigate select : M B E bool)
    (fill : gmap string PyVal -> M B E bool) (submit : M B E bool)
    (driver : B) (form_data : gmap string PyVal) :
  truthy (dict_get form_data "reportDate") = true ->
  let run := submit_cocorahs_with login navigate select fill submit
               (Ok driver) form_data in
  (forall w1,
     login (session driver) = (Ok false, w1) ->
     run = (failure "Failed to log in to CoCoRaHS" 401, trace w1 ++ [Quit]))
  /\ (forall w1 w2,
        login (session driver) = (Ok true, w1) ->
        navigate w1 = (Ok false, w2) ->
        run = (failure "Failed to navigate to precipitation report form" 400,
               trace w2 ++ [Quit]))
  /\ (forall w1 w2 w3,
        login (session driver) = (Ok true, w1) ->
        navigate w1 = (Ok true, w2) ->
        select w2 = (Ok false, w3) ->
        run = (failure "Failed to select station VT-CL-14" 400,
               trace w3 ++ [Quit]))
  /\ (forall w1 w2 w3 w4,
        login (session driver) = (Ok true, w1) ->
        navigate w1 = (Ok true, w2) ->
        select w2 = (Ok true, w3) ->
        fill form_data w3 = (Ok false, w4) ->
        run = (failure "Failed to fill form fields" 400, trace w4 ++ [Quit]))
  /\ (forall w1 w2 w3 w4 w5,
        login (session driver) = (Ok true, w1) ->
        navigate w1 = (Ok true, w2) ->
        select w2 = (Ok true, w3) ->
        fill form_data w3 = (Ok true, w4) ->
        submit w4 = (Ok false, w5) ->
        run = (failure "Failed to submit form to CoCoRaHS" 400,
               trace w5 ++ [Quit])).
Proof.
  intros Hdate run. subst run. rewrite (run_with_session _ _ _ _ _ _ _ Hdate).
  unfold run_stages.
  repeat split; intros;
    repeat (erewrite bind_ok by eassumption; simpl); done.
Qed.

(** C3. For every run in which the browser was created, and whatever
    the five stages do (return [True], return [False], or raise): the
    trace of the run is the trace of the stages followed by [quit], and
    after it only the log record of the outer handler when a stage
    raised.  With the five stages of the backend, which turn their own
    exceptions into [False], the run answers what the stages answered
    and [quit] is the last event of its trace. *)
Theorem session_released_on_every_exit (login navigate select : M B E bool)
    (fill : gmap string PyVal -> M B E bool) (submit : M B E bool)
    (driver : B) (form_data : gmap string PyVal) :
  truthy (dict_get form_data "reportDate") = true ->
  (let body := run_stages login navigate select fill submit form_data
                 (session driver) in
   (submit_cocorahs_with login navigate select fill submit (Ok driver)
      form_data).2
   = trace body.2
     ++ Quit :: match body.1 with
                | Ok _ => []
                | Raise _ => [Log ERROR "Unexpected error: {str(e)}"]
                end)
  /\ exists response w,
       run_stages login_to_cocorahs navigate_to_precip_form select_station
         fill_form_fields submit_form form_data (session driver)
       = (Ok response, w)
       /\ submit_cocorahs (Ok driver) form_data = (response, trace w ++ [Quit]).
Proof.
  intros Hdate. split.
  - intros body. subst body.
    rewrite (run_with_session _ _ _ _ _ _ _ Hdate).
    destruct (run_stages _ _ _ _ _ _ _) as [[response|e] w]; simpl; [done|].
    by rewrite <- app_assoc.
  - destruct (stages_never_raise form_data (session driver))
      as (response & w & Hrun).
    exists response, w. split; [done|].
    unfold submit_cocorahs.
    by rewrite (run_with_session _ _ _ _ _ _ _ Hdate), Hrun.
Qed.
End Pipeline.

Section Requests.
Context {B E : Type} {drv : WebDriver B E}.

(** C9. [select_station] returns [True] in every world, and no run
    of [submit_cocorahs], whatever the browser and the request, answers
    with the message "Failed to select station VT-CL-14". *)
Theorem station_failure_unreachable :
  (forall w : World B E, (select_station w).1 = Ok true)
  /\ forall (chrome : Outcome B) (form_data : gmap string PyVal),
       message (submit_cocorahs chrome form_data).1
       <> ("Failed to select station " ++ COCORAHS_STATION)%string.
Proof.
  split; [done|]. intros chrome form_data.
  unfold submit_cocorahs, submit_cocorahs_with.
  destruct (truthy (dict_get form_data "reportDate")); simpl; [|done].
  destruct chrome as [driver|e]; [|done].
  rewrite always_quits. unfold run_stages.
  unfold bind at 1.
  destruct (login_to_cocorahs _) as [[[]|e] w1]; simpl; [|done|done].
  unfold bind at 1.
  destruct (navigate_to_precip_form _) as [[[]|e] w2]; simpl; [|done|done].
  unfold bind at 1. rewrite select_station_true. simpl.
  unfold bind at 1.
  destruct (fill_form_fields _ _) as [[[]|e] w4]; simpl; [|done|done].
  unfold bind at 1.
  destruct (submit_form _) as [[[]|e] w5]; simpl; done.
Qed.

End Requests.

(** * Further properties *)

Section TraceRules.
Context {B E : Type} {drv : WebDriver B E}.
Variable P : Event E -> bool.

Lemma emits_ret {A} (a : A) : emits P (ret (B := B) a).
Proof. intros w. exists []. by rewrite app_nil_r. Qed.

Lemma emits_raise {A} (e : Exn) : emits P (raise (B := B) (A := A) e).
Proof. intros w. exists []. by rewrite app_nil_r. Qed.

Lemma emits_lift {A} (o : Outcome A) : emits P (lift (B := B) o).
Proof. intros w. exists []. by rewrite app_nil_r. Qed.

Lemma emits_one {A} (m : M B E A) (ev : Event E) :
  P ev = true ->
  (forall w, trace (m w).2 = trace w ++ [ev]) ->
  emits P m.
Proof. intros HP Hm w. exists [ev]. simpl. by rewrite Hm, HP. Qed.

Lemma emits_log (lvl : Level) (msg : string) :
  P (Log lvl msg) = true -> emits P (log (B := B) lvl msg).
Proof. intros HP. by apply (emits_one _ _ HP). Qed.

Lemma emits_query {A} (ev : Event E) (f : B -> Outcome A) :
  P ev = true -> emits P (query ev f).
Proof. intros HP. by apply (emits_one _ _ HP). Qed.

Lemma emits_command (ev : Event E) (f : B -> Outcome unit * B) :
  P ev = true -> emits P (command ev f).
Proof.
  intros HP. apply (emits_one _ _ HP). intros w. unfold command.
  by destruct (f (browser w)).
Qed.

Lemma emits_sleep (secs : nat) : P (Sleep secs) = true -> emits P (sleep secs).
Proof. intros HP. by apply (emits_one _ _ HP). Qed.

Lemma emits_bind {A A'} (m : M B E A) (k : A -> M B E A') :
  emits P m -> (forall a, emits P (k a)) -> emits P (bind m k).
Proof.
  intros Hm Hk w. unfold bind. destruct (Hm w) as (t1 & Ht1 & HP1).
  destruct (m w) as [[a|e] w1]; simpl in *; [|by exists t1].
  destruct (Hk a w1) as (t2 & Ht2 & HP2). exists (t1 ++ t2).
  by rewrite Ht2, Ht1, <- app_assoc, forallb_app, HP1, HP2.
Qed.

Lemma emits_try_except {A} (body : M B E A) (handler : Exn -> M B E A) :
  emits P body -> (forall e, emits P (handler e)) ->
  emits P (try_except body handler).
Proof.
  intros Hm Hk w. unfold try_except. destruct (Hm w) as (t1 & Ht1 & HP1).
  destruct (body w) as [[a|e] w1]; simpl in *; [by exists t1|].
  destruct (Hk e w1) as (t2 & Ht2 & HP2). exists (t1 ++ t2).
  by rewrite Ht2, Ht1, <- app_assoc, forallb_app, HP1, HP2.
Qed.

Lemma emits_for_each {A} (l : list A) (body : A -> M B E unit) :
  (forall x, emits P (body x)) -> emits P (for_each l body).
Proof.
  intros Hb. induction l as [|x l IH]; simpl.
  - apply emits_ret.
  - apply emits_bind; [apply Hb|by intros _].
Qed.
End TraceRules.

Ltac emits_step :=
  first
    [ apply emits_ret
    | apply emits_lift
    | apply emits_log; reflexivity
    | apply emits_sleep; reflexivity
    | apply emits_query; reflexivity
    | apply emits_command; reflexivity
    | apply emits_for_each; intros
    | apply emits_try_except; [|intros]
    | apply emits_bind; [|intros]
    | match goal with
      | |- emits _ (if ?c then _ else _) => destruct c
      | |- emits _ (match ?x with _ => _ end) => destruct x
      end ].

Section Readers.
Context {B E : Type} {drv : WebDriver B E}.
Variable P : Event E -> bool.
Hypothesis P_reads : forall ev, passive ev = true -> P ev = true.

Lemma emits_first_match (found : string) (selectors : list (By * string)) :
  emits P (first_match found selectors).
Proof.
  induction selectors as [|[how value] rest IH]; simpl.
  - apply emits_ret.
  - apply emits_bind; [|intros [field|]; [apply emits_ret|apply IH]].
    apply emits_try_except; [|intros; apply emits_ret].
    apply emits_bind; [apply emits_query; by apply P_reads|intros].
    apply emits_bind; [apply emits_log; by apply P_reads|intros].
    apply emits_ret.
Qed.

Lemma emits_locate_username : emits P locate_username.
Proof.
  apply emits_bind; [apply emits_first_match|intros [field|]].
  - apply emits_ret.
  - apply emits_try_except; [|intros].
    + apply emits_bind; [apply emits_query; by apply P_reads|intros].
      apply emits_bind; [apply emits_log; by apply P_reads|intros].
      apply emits_ret.
    + apply emits_bind; [apply emits_log; by apply P_reads|intros].
      apply emits_ret.
Qed.

Lemma emits_locate_password : emits P locate_password.
Proof.
  apply emits_bind; [apply emits_first_match|intros [field|]].
  - apply emits_ret.
  - apply emits_try_except; [|intros].
    + apply emits_bind; [apply emits_query; by apply P_reads|intros].
      apply emits_bind; [apply emits_log; by apply P_reads|intros].
      apply emits_ret.
    + apply emits_bind; [apply emits_log; by apply P_reads|intros].
      apply emits_ret.
Qed.

Lemma emits_locate_login_button : emits P locate_login_button.
Proof.
  apply emits_bind; [apply emits_first_match|intros [field|]].
  - apply emits_ret.
  - apply emits_bind; [apply emits_log; by apply P_reads|intros].
    apply emits_ret.
Qed.

Lemma emits_scan_buttons (all_buttons : list E) :
  emits P (scan_buttons all_buttons).
Proof.
  induction all_buttons as [|btn rest IH]; simpl.
  - apply emits_ret.
  - apply emits_bind; [apply emits_query; by apply P_reads|intros btn_text].
    apply emits_bind; [apply emits_query; by apply P_reads|intros btn_type].
    apply emits_bind; [apply emits_query; by apply P_reads|intros].
    apply emits_bind; [apply emits_query; by apply P_reads|intros].
    apply emits_bind; [apply emits_log; by apply P_reads|intros].
    destruct (_ || _); [|apply IH].
    apply emits_bind; [apply emits_log; by apply P_reads|intros].
    apply emits_ret.
Qed.

Lemma emits_scan_inputs (all_inputs : list E) :
  emits P (scan_inputs all_inputs).
Proof.
  induction all_inputs as [|inp rest IH]; simpl.
  - apply emits_ret.
  - apply emits_bind; [apply emits_query; by apply P_reads|intros inp_type].
    destruct (attr_is inp_type "submit"); [|apply IH].
    apply emits_bind; [apply emits_query; by apply P_reads|intros].
    apply emits_bind; [apply emits_query; by apply P_reads|intros].
    apply emits_bind; [apply emits_log; by apply P_reads|intros].
    apply emits_ret.
Qed.

Lemma emits_login_outcome : emits P login_outcome.
Proof.
  unfold login_outcome.
  repeat first
    [ apply emits_ret
    | apply emits_log; by apply P_reads
    | apply emits_sleep; by apply P_reads
    | apply emits_query; by apply P_reads
    | apply emits_bind; [|intros]
    | match goal with |- emits _ (if ?c then _ else _) => destruct c end ].
Qed.

Lemma emits_submit_outcome : emits P submit_outcome.
Proof.
  unfold submit_outcome.
  repeat first
    [ apply emits_ret
    | apply emits_log; by apply P_reads
    | apply emits_sleep; by apply P_reads
    | apply emits_query; by apply P_reads
    | apply emits_for_each; intros
    | apply emits_try_except; [|intros]
    | apply emits_bind; [|intros]
    | match goal with |- emits _ (if ?c then _ else _) => destruct c end ].
Qed.

Lemma emits_fill_enumerate : emits P fill_enumerate.
Proof.
  unfold fill_enumerate.
  repeat first
    [ apply emits_ret
    | apply emits_log; by apply P_reads
    | apply emits_sleep; by apply P_reads
    | apply emits_query; by apply P_reads
    | apply emits_for_each; intros
    | apply emits_bind; [|intros]
    | match goal with |- emits _ (if ?c then _ else _) => destruct c end ].
Qed.
End Readers.

Section TraceFacts.
Context {B E : Type} {drv : WebDriver B E}.

Lemma passive_in_session (ev : Event E) :
  passive ev = true -> in_session ev = true.
Proof. by destruct ev. Qed.

Lemma passive_hands_off (ev : Event E) :
  passive ev = true -> hands_off ev = true.
Proof. by destruct ev. Qed.

Lemma passive_fills_only (ev : Event E) :
  passive ev = true -> fills_only ev = true.
Proof. by destruct ev. Qed.

Lemma actions_app (t1 t2 : list (Event E)) :
  actions (t1 ++ t2) = actions t1 ++ actions t2.
Proof. apply List.filter_app. Qed.

Lemma actions_hands_off (t : list (Event E)) :
  forallb hands_off t = true -> actions t = [].
Proof.
  induction t as [|ev t IH]; [done|]. simpl.
  intros [Hev Ht]%andb_prop. unfold actions. simpl. rewrite Hev. simpl.
  by apply IH.
Qed.

Lemma bind_inv {A A'} (m : M B E A) (k : A -> M B E A') (w w' : World B E)
    (r : Outcome A') :
  bind m k w = (r, w') ->
  (exists a w1, m w = (Ok a, w1) /\ k a w1 = (r, w'))
  \/ (exists e, m w = (Raise e, w') /\ r = Raise e).
Proof.
  unfold bind. destruct (m w) as [[a|e] w1]; intros H.
  - left. by exists a, w1.
  - right. exists e. by injection H as <- <-.
Qed.
End TraceFacts.

Ltac session_step :=
  first
    [ apply emits_ret
    | apply emits_lift
    | apply emits_log; reflexivity
    | apply emits_sleep; reflexivity
    | apply emits_query; reflexivity
    | apply emits_command; reflexivity
    | apply emits_first_match; first [apply passive_in_session|apply passive_hands_off|apply passive_fills_only]
    | apply emits_scan_buttons; first [apply passive_in_session|apply passive_hands_off|apply passive_fills_only]
    | apply emits_scan_inputs; first [apply passive_in_session|apply passive_hands_off|apply passive_fills_only]
    | apply emits_for_each; intros
    | apply emits_try_except; [|intros]
    | apply emits_bind; [|intros]
    | match goal with
      | |- emits _ (if ?c then _ else _) => destruct c
      | |- emits _ (match ?x with _ => _ end) => destruct x
      | |- emits _ (let '(_, _) := ?x in _) => destruct x
      end ].

Section SessionDiscipline.
Context {B E : Type} {drv : WebDriver B E}.

Lemma login_in_session : emits (B := B) (E := E) in_session login_to_cocorahs.
Proof.
  unfold login_to_cocorahs, login_click, login_enumerate, locate_username,
    locate_password, locate_login_button, login_outcome, login_failed.
  repeat session_step.
Qed.

Lemma navigate_in_session : emits (B := B) (E := E) in_session navigate_to_precip_form.
Proof. unfold navigate_to_precip_form. repeat session_step. Qed.

Lemma select_in_session : emits (B := B) (E := E) in_session select_station.
Proof. unfold select_station. repeat session_step. Qed.

Lemma fill_in_session (form_data : gmap string PyVal) :
  emits (B := B) (E := E) in_session (fill_form_fields form_data).
Proof.
  unfold fill_form_fields, fill_enumerate, fill_notes, fill_failed.
  repeat session_step; unfold fill_one; repeat session_step.
Qed.


Lemma submit_in_session : emits (B := B) (E := E) in_session submit_form.
Proof.
  unfold submit_form, submit_click, submit_outcome, submit_failed.
  repeat session_step.
Qed.

Lemma stages_in_session (form_data : gmap string PyVal) :
  emits (B := B) (E := E) in_session
    (run_stages login_to_cocorahs navigate_to_precip_form select_station
       fill_form_fields submit_form form_data).
Proof.
  unfold run_stages.
  apply emits_bind; [apply login_in_session|intros []; [|apply emits_ret]].
  apply emits_bind; [apply navigate_in_session|intros []; [|apply emits_ret]].
  apply emits_bind; [apply select_in_session|intros []; [|apply emits_ret]].
  apply emits_bind; [apply fill_in_session|intros []; [|apply emits_ret]].
  apply emits_bind; [apply submit_in_session|intros []; [|apply emits_ret]].
  simpl. repeat session_step.
Qed.

(** X5. The trace of every run that passed validation and got a
    browser is: the record of line 397, the launch, the events of the
    stages, [quit].  Among the events of the stages there is no launch
    and no quit, and every [get] is on the login URL or the form URL: the
    browser is launched once, quit once, as the last event, and sent
    nowhere else. *)
Theorem run_keeps_session_discipline (driver : B)
    (form_data : gmap string PyVal) :
  truthy (dict_get form_data "reportDate") = true ->
  exists t,
    (submit_cocorahs (Ok driver) form_data).2
    = [received; Launch] ++ t ++ [Quit]
    /\ forallb in_session t = true.
Proof.
  intros Hdate.
  destruct (stages_never_raise form_data (session driver))
    as (response & w & Hrun).
  destruct (stages_in_session form_data (session driver)) as (t & Ht & HP).
  rewrite Hrun in Ht. simpl in Ht. exists t. split; [|done].
  unfold submit_cocorahs.
  rewrite (run_with_session _ _ _ _ _ _ _ Hdate), Hrun. simpl.
  by rewrite Ht.
Qed.
End SessionDiscipline.

Section LoginTyping.
Context {B E : Type} {drv : WebDriver B E}.

(** Lines 158-168, once the three controls are located. *)
Lemma login_typing_trace (u p b : E) (w w' : World B E) (r : Outcome bool) :
  (log INFO "Filling username: {COCORAHS_USERNAME}" ;;
   clear u ;;
   send_keys u COCORAHS_USERNAME ;;
   log INFO "Filling password" ;;
   clear p ;;
   send_keys p COCORAHS_PASSWORD ;;
   log INFO "Clicking login button" ;;
   click b ;;
   ret true) w = (r, w') ->
  r <> Ok false
  /\ (r = Ok true ->
      exists t, trace w' = trace w ++ t
                /\ actions t = [ Clear u; SendKeys u COCORAHS_USERNAME;
                                 Clear p; SendKeys p COCORAHS_PASSWORD;
                                 Click b ]).
Proof.
  unfold bind, log, clear, send_keys, click, command, ret, emit. simpl.
  destruct (elt_clear u (browser w)) as [[[]|e] b1]; simpl.
  2: { intros [= <- <-]. done. }
  destruct (elt_send_keys u COCORAHS_USERNAME b1) as [[[]|e] b2]; simpl.
  2: { intros [= <- <-]. done. }
  destruct (elt_clear p b2) as [[[]|e] b3]; simpl.
  2: { intros [= <- <-]. done. }
  destruct (elt_send_keys p COCORAHS_PASSWORD b3) as [[[]|e] b4]; simpl.
  2: { intros [= <- <-]. done. }
  destruct (elt_click b b4) as [[[]|e] b5]; simpl.
  2: { intros [= <- <-]. done. }
  intros [= <- <-]. split; [done|]. intros _.
  eexists [_; _; _; _; _; _; _; _]. simpl. rewrite <- !app_assoc. simpl.
  split; reflexivity.
Qed.

(** The prefix of [login_click]: what it found, and that it only read. *)
Lemma login_click_inv (w w' : World B E) (r : Outcome bool) :
  login_click w = (r, w') ->
  (exists t, trace w' = trace w ++ t /\ actions t = [] /\ r <> Ok true)
  \/ exists w1 w2 w3 w4 u p b,
       login_enumerate w = (Ok tt, w1)
       /\ locate_username w1 = (Ok (Some u), w2)
       /\ locate_password w2 = (Ok (Some p), w3)
       /\ locate_login_button w3 = (Ok (Some b), w4)
       /\ r <> Ok false
       /\ (r = Ok true ->
           exists t, trace w' = trace w ++ t
                     /\ actions t = [ Clear u; SendKeys u COCORAHS_USERNAME;
                                      Clear p; SendKeys p COCORAHS_PASSWORD;
                                      Click b ]).
Proof.
  unfold login_click. intros H.
  assert (emits (B := B) (E := E) hands_off login_enumerate) as He.
  { unfold login_enumerate. repeat session_step. }
  pose proof (emits_locate_username hands_off passive_hands_off) as Hu.
  pose proof (emits_locate_password hands_off passive_hands_off) as Hp.
  pose proof (emits_locate_login_button hands_off passive_hands_off) as Hb.
  specialize (He w). destruct He as (t1 & Ht1 & HP1).
  apply bind_inv in H as [([] & w1 & Hm1 & H)|(e & Hm1 & ->)].
  2: { left. rewrite Hm1 in Ht1. exists t1. split; [done|].
       split; [by apply actions_hands_off|done]. }
  rewrite Hm1 in Ht1. simpl in Ht1.
  specialize (Hu w1). destruct Hu as (t2 & Ht2 & HP2).
  apply bind_inv in H as [(u & w2 & Hm2 & H)|(e & Hm2 & ->)].
  2: { left. rewrite Hm2 in Ht2. exists (t1 ++ t2). simpl in Ht2.
       rewrite Ht2, Ht1, <- app_assoc. split; [done|].
       rewrite actions_app, !actions_hands_off by done. done. }
  rewrite Hm2 in Ht2. simpl in Ht2.
  destruct u as [u|].
  2: { left. injection H as <- <-. exists (t1 ++ t2).
       rewrite Ht2, Ht1, <- app_assoc. split; [done|].
       rewrite actions_app, !actions_hands_off by done. done. }
  specialize (Hp w2). destruct Hp as (t3 & Ht3 & HP3).
  apply bind_inv in H as [(p & w3 & Hm3 & H)|(e & Hm3 & ->)].
  2: { left. rewrite Hm3 in Ht3. exists (t1 ++ t2 ++ t3). simpl in Ht3.
       rewrite Ht3, Ht2, Ht1, <- !app_assoc. split; [done|].
       rewrite !actions_app, !actions_hands_off by done. done. }
  rewrite Hm3 in Ht3. simpl in Ht3.
  destruct p as [p|].
  2: { left. injection H as <- <-. exists (t1 ++ t2 ++ t3).
       rewrite Ht3, Ht2, Ht1, <- !app_assoc. split; [done|].
       rewrite !actions_app, !actions_hands_off by done. done. }
  specialize (Hb w3). destruct Hb as (t4 & Ht4 & HP4).
  apply bind_inv in H as [(b & w4 & Hm4 & H)|(e & Hm4 & ->)].
  2: { left. rewrite Hm4 in Ht4. exists (t1 ++ t2 ++ t3 ++ t4). simpl in Ht4.
       rewrite Ht4, Ht3, Ht2, Ht1, <- !app_assoc. split; [done|].
       rewrite !actions_app, !actions_hands_off by done. done. }
  rewrite Hm4 in Ht4. simpl in Ht4.
  destruct b as [b|].
  2: { left. injection H as <- <-. exists (t1 ++ t2 ++ t3 ++ t4).
       rewrite Ht4, Ht3, Ht2, Ht1, <- !app_assoc. split; [done|].
       rewrite !actions_app, !actions_hands_off by done. done. }
  right. exists w1, w2, w3, w4, u, p, b.
  destruct (login_typing_trace u p b w4 w' r H) as [Hr Hok].
  repeat (split; [done|]). intros Hrt.
  destruct (Hok Hrt) as (t5 & Ht5 & Ha5).
  exists (t1 ++ t2 ++ t3 ++ t4 ++ t5).
  rewrite Ht5, Ht4, Ht3, Ht2, Ht1, <- !app_assoc. split; [done|].
  rewrite !actions_app, !actions_hands_off by done. done.
Qed.

(** X6. When the login stage gives up before the click, because
    one of the three controls was not found, it has cleared no field,
    typed nothing and clicked nothing. *)
Theorem login_types_nothing_unless_located (w w' : World B E) :
  login_click w = (Ok false, w') ->
  exists t, trace w' = trace w ++ t /\ actions t = [].
Proof.
  intros H. apply login_click_inv in H as [(t & Ht & Ha & _)|H].
  - by exists t.
  - destruct H as (w1 & w2 & w3 & w4 & u & p & b & _ & _ & _ & _ & Hr & _).
    done.
Qed.

(** X7. When the login stage gets to click the login control,
    its writes and clicks are exactly, in this order: clear the element
    located as user field, type the user name into it, clear the element
    located as password field, type the password into it, click the
    element located as login control. *)
Theorem login_types_credentials_into_located_fields (w w' : World B E) :
  login_click w = (Ok true, w') ->
  exists w1 w2 w3 w4 u p b,
    login_enumerate w = (Ok tt, w1)
    /\ locate_username w1 = (Ok (Some u), w2)
    /\ locate_password w2 = (Ok (Some p), w3)
    /\ locate_login_button w3 = (Ok (Some b), w4)
    /\ exists t, trace w' = trace w ++ t
                 /\ actions t = [ Clear u; SendKeys u COCORAHS_USERNAME;
                                  Clear p; SendKeys p COCORAHS_PASSWORD;
                                  Click b ].
Proof.
  intros H. apply login_click_inv in H as [(t & _ & _ & Hr)|H]; [done|].
  destruct H as (w1 & w2 & w3 & w4 & u & p & b & H1 & H2 & H3 & H4 & _ & Hok).
  exists w1, w2, w3, w4, u, p, b. repeat (split; [done|]). by apply Hok.
Qed.
End LoginTyping.

Section Responses.
Context {B E : Type} {drv : WebDriver B E}.

(** The four stage results behind a response of the backend. *)
Lemma stages_cases (form_data : gmap string PyVal) (w : World B E) :
  exists response w',
    run_stages login_to_cocorahs navigate_to_precip_form select_station
      fill_form_fields submit_form form_data w = (Ok response, w')
    /\ ((response = submitted /\
         exists w1 w2 w4 w5,
           login_to_cocorahs w = (Ok true, w1)
           /\ navigate_to_precip_form w1 = (Ok true, w2)
           /\ fill_form_fields form_data (emit station_locked w2)
              = (Ok true, w4)
           /\ submit_form w4 = (Ok true, w5)
           /\ w' = emit (Log INFO "Data successfully submitted to CoCoRaHS") w5)
        \/ (success response = false /\ response ∈ stage_responses
            /\ ~ exists w1 w2 w4 w5,
                 login_to_cocorahs w = (Ok true, w1)
                 /\ navigate_to_precip_form w1 = (Ok true, w2)
                 /\ fill_form_fields form_data (emit station_locked w2)
                    = (Ok true, w4)
                 /\ submit_form w4 = (Ok true, w5))).
Proof.
  unfold run_stages.
  destruct (login_total w) as ([] & w1 & H1); rewrite (bind_ok _ _ _ _ _ H1);
    simpl.
  2: { eexists _, _. split; [done|]. right. split; [done|].
       split; [set_solver|]. intros (? & ? & ? & ? & ? & _). congruence. }
  destruct (navigate_total w1) as ([] & w2 & H2);
    rewrite (bind_ok _ _ _ _ _ H2); simpl.
  2: { eexists _, _. split; [done|]. right. split; [done|].
       split; [set_solver|]. intros (? & ? & ? & ? & ? & ? & _). congruence. }
  rewrite (bind_ok _ _ _ _ _ (select_station_true w2)). simpl.
  destruct (fill_total form_data (emit station_locked w2)) as ([] & w4 & H4);
    rewrite (bind_ok _ _ _ _ _ H4); simpl.
  2: { eexists _, _. split; [done|]. right. split; [done|].
       split; [set_solver|]. intros (? & ? & ? & ? & ? & ? & ? & _).
       congruence. }
  destruct (submit_total w4) as ([] & w5 & H5);
    rewrite (bind_ok _ _ _ _ _ H5); simpl.
  2: { eexists _, _. split; [done|]. right. split; [done|].
       split; [set_solver|]. intros (? & ? & ? & ? & ? & ? & ? & ?).
       congruence. }
  eexists _, _. split; [done|]. left. split; [done|].
  by exists w1, w2, w4, w5.
Qed.

(** The three ways a run of the backend can go. *)
Lemma run_cases (chrome : Outcome B) (form_data : gmap string PyVal) :
  (truthy (dict_get form_data "reportDate") = false
   /\ submit_cocorahs chrome form_data
      = (failure "Report date is required" 400, [received]))
  \/ (truthy (dict_get form_data "reportDate") = true
      /\ exists e, chrome = Raise e
         /\ submit_cocorahs chrome form_data
            = (failure ("Server error: " ++ exn_str e) 500,
               [ received; Launch;
                 Log ERROR "Failed to initialize WebDriver: {str(e)}";
                 Log ERROR "Unexpected error: {str(e)}" ]))
  \/ (truthy (dict_get form_data "reportDate") = true
      /\ exists driver, chrome = Ok driver
         /\ (submit_cocorahs chrome form_data).1 ∈ stage_responses).
Proof.
  destruct (truthy (dict_get form_data "reportDate")) eqn:Hdate.
  2: { left. split; [done|]. unfold submit_cocorahs, submit_cocorahs_with.
       by rewrite Hdate. }
  right. destruct chrome as [driver|e].
  2: { left. split; [done|]. exists e. split; [done|].
       unfold submit_cocorahs, submit_cocorahs_with. by rewrite Hdate. }
  right. split; [done|]. exists driver. split; [done|].
  unfold submit_cocorahs. rewrite (run_with_session _ _ _ _ _ _ _ Hdate).
  destruct (stages_cases form_data (session driver))
    as (response & w' & -> & [[-> _]|(_ & Hin & _)]); simpl; [set_solver|done].
Qed.



(** X3. For every run of the backend the success flag is set
    exactly when the status is 200, the status is one of 200, 400, 401
    and 500, and the message is not empty. *)
Theorem response_is_coherent (chrome : Outcome B)
    (form_data : gmap string PyVal) :
  let response := (submit_cocorahs chrome form_data).1 in
  (success response = true <-> status response = 200)
  /\ status response ∈ [200; 400; 401; 500]
  /\ message response <> "".
Proof.
  simpl.
  destruct (run_cases chrome form_data)
    as [[Hd Hr]|[(Hd & e & -> & Hr)|(Hd & driver & -> & Hr)]].
  - rewrite Hr. simpl. split; [done|]. split; [set_solver|done].
  - rewrite Hr. simpl. split; [done|]. split; [set_solver|done].
  - unfold stage_responses in Hr.
    repeat (apply elem_of_cons in Hr as [Hr|Hr];
            [rewrite Hr; simpl; split; [done|]; split; [set_solver|done]|]).
    by apply elem_of_nil in Hr.
Qed.

(** X4. A run that passed validation and got a browser reports
    success exactly when login, navigation, fill and submit returned
    [True] one after the other, each starting in the world the previous
    one left; its trace is then the trace of the stages, the record
    "Data successfully submitted to CoCoRaHS" and [quit]. *)
Theorem run_succeeds_iff_all_stages (driver : B)
    (form_data : gmap string PyVal) :
  truthy (dict_get form_data "reportDate") = true ->
  (success (submit_cocorahs (Ok driver) form_data).1 = true
   <-> exists w1 w2 w4 w5,
         login_to_cocorahs (session driver) = (Ok true, w1)
         /\ navigate_to_precip_form w1 = (Ok true, w2)
         /\ fill_form_fields form_data (emit station_locked w2) = (Ok true, w4)
         /\ submit_form w4 = (Ok true, w5)
         /\ submit_cocorahs (Ok driver) form_data
            = (submitted,
               trace w5
               ++ [Log INFO "Data successfully submitted to CoCoRaHS"; Quit])).
Proof.
  intros Hdate. unfold submit_cocorahs.
  rewrite (run_with_session _ _ _ _ _ _ _ Hdate).
  destruct (stages_cases form_data (session driver))
    as (response & w' & -> & [[-> H]|(Hs & _ & Hnot)]); simpl.
  - destruct H as (w1 & w2 & w4 & w5 & H1 & H2 & H4 & H5 & ->).
    split; [|done]. intros _. exists w1, w2, w4, w5.
    repeat (split; [done|]). simpl. by rewrite <- app_assoc.
  - rewrite Hs. split; [done|].
    intros (w1 & w2 & w4 & w5 & H1 & H2 & H4 & H5 & _).
    destruct Hnot. by exists w1, w2, w4, w5.
Qed.
End Responses.

Section Navigation.
Context {B E : Type} {drv : WebDriver B E}.

Ltac settle :=
  simpl; rewrite <- ?app_assoc; simpl; eexists; (split; [reflexivity|]);
  simpl; try reflexivity.

(** X10. With the current URL readable, the navigation stage
    issues no [get] at all when the URL already contains
    "DailyPrecipReport", and exactly one [get], of the form URL,
    otherwise. *)
Theorem navigate_only_when_needed (w : World B E) (url : string) :
  drv_current_url (browser w) = Ok url ->
  exists t,
    trace (navigate_to_precip_form w).2 = trace w ++ t
    /\ gets t = if contains "DailyPrecipReport" url
                then [] else [COCORAHS_SUBMIT_URL].
Proof.
  intros Hurl.
  unfold navigate_to_precip_form, try_except, bind, current_url, query, log,
    get, command, sleep, find_elements, ret, emit.
  simpl. rewrite Hurl.
  destruct (contains "DailyPrecipReport" url); simpl.
  - destruct (drv_find_elements TAG_NAME "input" _); simpl; [|settle].
    destruct (drv_find_elements TAG_NAME "select" _); settle.
  - destruct (drv_get COCORAHS_SUBMIT_URL (browser w)) as [[[]|e] b1]; simpl;
      [|settle].
    destruct (drv_find_elements TAG_NAME "input" _); simpl; [|settle].
    destruct (drv_find_elements TAG_NAME "select" _); settle.
Qed.

(** X9. [navigate_to_precip_form] never raises, and it returns
    [False] exactly when the current URL cannot be read or, the URL not
    containing "DailyPrecipReport", the [get] of the form URL raises.  A
    failure to enumerate the elements of the form does not fail it. *)
Theorem navigate_fails_iff (w : World B E) :
  (exists ok, (navigate_to_precip_form w).1 = Ok ok)
  /\ ((navigate_to_precip_form w).1 = Ok false
      <-> (exists e, drv_current_url (browser w) = Raise e)
          \/ (exists url e,
                drv_current_url (browser w) = Ok url
                /\ contains "DailyPrecipReport" url = false
                /\ (drv_get COCORAHS_SUBMIT_URL (browser w)).1 = Raise e)).
Proof.
  unfold navigate_to_precip_form, try_except, bind, current_url, query, log,
    get, command, sleep, find_elements, ret, emit.
  simpl.
  destruct (drv_current_url (browser w)) as [url|e] eqn:Hurl; simpl.
  2: { split; [by exists false|]. split; [|done]. intros _. left. by exists e. }
  destruct (contains "DailyPrecipReport" url) eqn:Hon; simpl.
  - destruct (drv_find_elements TAG_NAME "input" _); simpl.
    2: { split; [by exists true|]. split; [done|]. intros H.
         destruct H as [[e' He]|(url0 & e' & [= <-] & Hc & _)]; congruence. }
    destruct (drv_find_elements TAG_NAME "select" _); simpl;
      (split; [by exists true|]; split; [done|]; intros H;
       destruct H as [[e' He]|(url0 & e' & [= <-] & Hc & _)]; congruence).
  - destruct (drv_get COCORAHS_SUBMIT_URL (browser w)) as [[[]|e] b1] eqn:Hget;
      simpl.
    2: { split; [by exists false|]. split; [|done]. intros _. right.
         by exists url, e. }
    destruct (drv_find_elements TAG_NAME "input" _); simpl.
    2: { split; [by exists true|]. split; [done|]. intros H.
         destruct H as [[e' He]|(url0 & e' & _ & _ & He)]; congruence. }
    destruct (drv_find_elements TAG_NAME "select" _); simpl;
      (split; [by exists true|]; split; [done|]; intros H;
       destruct H as [[e' He]|(url0 & e' & _ & _ & He)]; congruence).
Qed.

(** X8. If, once the login page is enumerated, none of the seven
    strategies of the user field (six selectors and the CSS fallback)
    finds an element, [login_to_cocorahs] returns [False] having tried
    exactly these seven lookups: no strategy of the password field or of
    the login control is tried, and nothing is typed or clicked. *)
Theorem login_fails_without_username_field (w w1 : World B E) :
  login_enumerate w = (Ok tt, w1) ->
  Forall (absent (browser w1)) (strategies Username) ->
  exists t,
    login_to_cocorahs w
    = (Ok false, {| browser := browser w1; trace := trace w1 ++ t |})
    /\ lookups t = strategies Username
    /\ actions t = [].
Proof.
  intros Henum Habs. unfold strategies in Habs.
  apply Forall_app in Habs as [Hsel Hcss].
  apply Forall_cons in Hcss as [[e Hcss] _]. simpl in Hcss.
  destruct (first_match_none "Found username field using {selector}"
              username_selectors w1 Hsel) as (t & Hrun & Ht).
  exists (t ++ [ FindElement CSS_SELECTOR "input[type='text']";
                 Log ERROR "Could not find username field by any method" ]).
  assert (locate_username w1
          = (Ok None,
             (emit (Log ERROR "Could not find username field by any method")
               (emit (FindElement CSS_SELECTOR "input[type='text']")
                  {| browser := browser w1; trace := trace w1 ++ t |}))))
    as Hloc.
  { unfold locate_username. rewrite (bind_ok _ _ _ _ _ Hrun).
    unfold try_except, bind, find_element, query, log, ret, emit. simpl.
    by rewrite Hcss. }
  assert (login_click w
          = (Ok false,
             (emit (Log ERROR "Could not find username field by any method")
               (emit (FindElement CSS_SELECTOR "input[type='text']")
                  {| browser := browser w1; trace := trace w1 ++ t |}))))
    as Hclick.
  { unfold login_click. rewrite (bind_ok _ _ _ _ _ Henum).
    by rewrite (bind_ok _ _ _ _ _ Hloc). }
  unfold login_to_cocorahs, try_except. rewrite (bind_ok _ _ _ _ _ Hclick).
  split; [unfold emit; simpl; by rewrite <- !app_assoc|]. split.
  - rewrite lookups_app, Ht. done.
  - rewrite actions_app. simpl.
    assert (forallb hands_off t = true) as Hh; [|by rewrite actions_hands_off].
    pose proof (emits_first_match hands_off passive_hands_off
                  "Found username field using {selector}" username_selectors w1)
      as (t' & Ht' & HP).
    rewrite Hrun in Ht'. simpl in Ht'. by apply app_inv_head in Ht' as ->.
Qed.
End Navigation.

Section SubmitControl.
Context {B E : Type} {drv : WebDriver B E}.

Lemma scan_buttons_finds (buttons : list E) (w : World B E) :
  Forall (readable (browser w)) buttons ->
  exists t,
    scan_buttons buttons w
    = (Ok (List.find (button_qualifies (browser w)) buttons),
       {| browser := browser w; trace := trace w ++ t |})
    /\ actions t = [].
Proof.
  revert w. induction buttons as [|btn rest IH]; intros w Hr.
  - exists []. simpl. rewrite app_nil_r. by destruct w.
  - apply Forall_cons in Hr as [[[s Hs] Ha] Hr].
    destruct (Ha "type") as [ty Hty]. destruct (Ha "id") as [i Hi].
    destruct (Ha "name") as [n Hn].
    simpl. unfold button_qualifies. rewrite Hs, Hty.
    unfold bind at 1. unfold text at 1, query at 1. rewrite Hs.
    unfold bind at 1. unfold get_attribute at 1, query at 1. simpl.
    rewrite Hty.
    unfold bind at 1. unfold get_attribute at 1, query at 1. simpl.
    rewrite Hi.
    unfold bind at 1. unfold get_attribute at 1, query at 1. simpl.
    rewrite Hn.
    unfold bind at 1. unfold log at 1. simpl.
    destruct (attr_is ty "submit" || contains "submit" (lower (strip s))).
    + eexists [_; _; _; _; _; _]. unfold bind, log, ret, emit. simpl.
      rewrite <- !app_assoc. simpl. split; reflexivity.
    + match goal with
      | |- context [scan_buttons rest ?w0] =>
          destruct (IH w0 Hr) as (t & -> & Ht)
      end.
      eexists (_ :: _ :: _ :: _ :: _ :: t). simpl.
      rewrite <- !app_assoc. simpl. split; [reflexivity|exact Ht].
Qed.

Lemma scan_inputs_finds (inputs : list E) (w : World B E) :
  Forall (readable (browser w)) inputs ->
  exists t,
    scan_inputs inputs w
    = (Ok (List.find (input_qualifies (browser w)) inputs),
       {| browser := browser w; trace := trace w ++ t |})
    /\ actions t = [].
Proof.
  revert w. induction inputs as [|inp rest IH]; intros w Hr.
  - exists []. simpl. rewrite app_nil_r. by destruct w.
  - apply Forall_cons in Hr as [[_ Ha] Hr].
    destruct (Ha "type") as [ty Hty]. destruct (Ha "id") as [i Hi].
    destruct (Ha "value") as [v Hv].
    simpl. unfold input_qualifies. rewrite Hty.
    unfold bind at 1. unfold get_attribute at 1, query at 1. rewrite Hty.
    destruct (attr_is ty "submit").
    + eexists [_; _; _; _].
      unfold bind, get_attribute, query, log, ret, emit. simpl.
      rewrite Hi, Hv. rewrite <- !app_assoc. simpl. split; reflexivity.
    + match goal with
      | |- context [scan_inputs rest ?w0] =>
          destruct (IH w0 Hr) as (t & -> & Ht)
      end.
      eexists (_ :: t). simpl.
      rewrite <- !app_assoc. simpl. split; [reflexivity|exact Ht].
Qed.

Lemma submit_click_run (w : World B E) (buttons inputs : list E) :
  let page := drv_wait 2 (browser w) in
  drv_find_elements TAG_NAME "button" page = Ok buttons ->
  drv_find_elements TAG_NAME "input" page = Ok inputs ->
  Forall (readable page) buttons ->
  Forall (readable page) inputs ->
  exists t b',
    submit_click w
    = (match submit_control page buttons inputs with
       | Some control =>
           match (elt_click control page).1 with
           | Ok _ => Ok true
           | Raise e => Raise e
           end
       | None => Ok false
       end,
       {| browser := b'; trace := trace w ++ t |})
    /\ actions t = match submit_control page buttons inputs with
                   | Some control => [Click control]
                   | None => []
                   end.
Proof.
  intros page Hb Hi Hrb Hri. unfold submit_click, submit_control.
  unfold bind at 1. unfold log at 1.
  unfold bind at 1. unfold sleep at 1.
  unfold bind at 1. unfold find_elements at 1, query at 1. simpl. fold page.
  rewrite Hb.
  unfold bind at 1. unfold find_elements at 1, query at 1. simpl. fold page.
  rewrite Hi.
  unfold bind at 1. unfold log at 1.
  unfold bind at 1. unfold log at 1.
  match goal with
  | |- context [bind (scan_buttons buttons) _ ?w0] =>
      destruct (scan_buttons_finds buttons w0 Hrb) as (t1 & Hs1 & Ha1);
      rewrite (bind_ok _ _ _ _ _ Hs1)
  end.
  simpl. fold page.
  destruct (List.find (button_qualifies page) buttons) as [btn|].
  - unfold bind, ret, log, click, command, emit. simpl. fold page.
    destruct (elt_click btn page) as [[[]|e] b1]; simpl;
      eexists (_ :: _ :: _ :: _ :: _ :: _ :: t1 ++ [_; _]), _;
      (split; [repeat (rewrite <- app_assoc; simpl); reflexivity|]);
      simpl; by rewrite actions_app, Ha1.
  - match goal with
    | |- context [bind (scan_inputs inputs) _ ?w0] =>
        destruct (scan_inputs_finds inputs w0 Hri) as (t2 & Hs2 & Ha2);
        rewrite (bind_ok _ _ _ _ _ Hs2)
    end.
    simpl. fold page.
    destruct (List.find (input_qualifies page) inputs) as [inp|].
    + unfold bind, ret, log, click, command, emit. simpl. fold page.
      destruct (elt_click inp page) as [[[]|e] b1]; simpl;
        eexists (_ :: _ :: _ :: _ :: _ :: _ :: t1 ++ t2 ++ [_; _]), _;
        (split; [repeat (rewrite <- app_assoc; simpl); reflexivity|]);
        simpl; by rewrite !actions_app, Ha1, Ha2.
    + unfold bind, ret, log, emit. simpl.
      eexists (_ :: _ :: _ :: _ :: _ :: _ :: t1 ++ t2 ++ [_]), _.
      split; [repeat (rewrite <- app_assoc; simpl); reflexivity|].
      simpl. by rewrite !actions_app, Ha1, Ha2.
Qed.

(** X11. With the buttons and inputs of the form readable, the
    submit stage clicks the first button, in document order, whose type
    is "submit" or whose stripped, lower-cased text contains "submit";
    if no button qualifies, the first input of type "submit"; the click
    is its only write or click.  If no control qualifies it clicks
    nothing and [submit_form] returns [False]. *)
Theorem submit_click_targets_first_control (w : World B E)
    (buttons inputs : list E) :
  let page := drv_wait 2 (browser w) in
  drv_find_elements TAG_NAME "button" page = Ok buttons ->
  drv_find_elements TAG_NAME "input" page = Ok inputs ->
  Forall (readable page) buttons ->
  Forall (readable page) inputs ->
  exists t,
    trace (submit_click w).2 = trace w ++ t
    /\ match submit_control page buttons inputs with
       | Some control =>
           actions t = [Click control]
           /\ (submit_click w).1
              = match (elt_click control page).1 with
                | Ok _ => Ok true
                | Raise e => Raise e
                end
       | None =>
           actions t = [] /\ (submit_click w).1 = Ok false
           /\ (submit_form w).1 = Ok false
       end.
Proof.
  intros page Hb Hi Hrb Hri.
  destruct (submit_click_run w buttons inputs Hb Hi Hrb Hri)
    as (t & b' & Hrun & Ha).
  fold page in Hrun, Ha. exists t.
  unfold submit_form, try_except, bind. rewrite Hrun. simpl.
  split; [done|]. by destruct (submit_control page buttons inputs).
Qed.
End SubmitControl.

Section SubmitFaults.
Context {B E : Type} {drv : WebDriver B E}.

Lemma read_texts_inv (es : list E) (w w' : World B E) :
  for_each es (fun e => text e ;; ret tt) w = (Ok tt, w') ->
  Forall (fun e => exists s, elt_text e (browser w) = Ok s) es.
Proof.
  revert w. induction es as [|e es IH]; intros w H; [constructor|].
  simpl in H. apply bind_inv in H as [([] & w1 & Hm & H)|(x & _ & [=])].
  unfold bind, text, query, ret in Hm.
  destruct (elt_text e (browser w)) as [s|x] eqn:Hs; [|done].
  injection Hm as <-. constructor; [by exists s|]. by apply IH in H.
Qed.

Lemma after_success_check_result (w0 : World B E) (url : string) :
  drv_current_url (browser w0) = Ok url ->
  exists ok w',
    after_success_check w0 = (Ok ok, w')
    /\ (ok = false
        <-> contains "DailyPrecipReport" url = true
            /\ exists error_messages,
                 drv_find_elements CLASS_NAME "errormessage" (browser w0)
                 = Ok error_messages
                 /\ error_messages <> []
                 /\ Forall (fun e => exists s, elt_text e (browser w0) = Ok s)
                      error_messages).
Proof.
  intros Hu. unfold after_success_check.
  unfold bind at 1. unfold current_url at 1, query at 1. rewrite Hu.
  destruct (contains "DailyPrecipReport" url); simpl.
  2: { eexists _, _. split; [reflexivity|]. split; [done|]. by intros [? _]. }
  unfold bind at 1. unfold try_except at 1, bind at 1.
  unfold find_elements at 1, query at 1. simpl.
  destruct (drv_find_elements CLASS_NAME "errormessage" (browser w0))
    as [errs|x] eqn:He; cbv beta iota.
  2: { eexists _, _. split; [reflexivity|]. split; [done|].
       by intros (_ & ? & [=] & _). }
  destruct (nonempty errs) eqn:Hne.
  2: { eexists _, _. split; [reflexivity|]. split; [done|].
       intros (_ & ? & [= <-] & ? & _). by destruct errs. }
  unfold bind at 1.
  destruct (for_each errs (fun e0 => text e0 ;; ret tt)
              (emit (FindElements CLASS_NAME "errormessage")
                 (emit CurrentUrl w0))) as [[[]|x] w2] eqn:Hread.
  - eexists _, _. split; [reflexivity|]. split; [intros _|done].
    split; [done|]. exists errs. split; [done|]. split; [by destruct errs|].
    by apply read_texts_inv in Hread.
  - eexists _, _. split; [reflexivity|]. split; [done|].
    intros (_ & es' & [= <-] & _ & Hall).
    destruct (read_texts errs
                (emit (FindElements CLASS_NAME "errormessage")
                   (emit CurrentUrl w0)) Hall) as (t & Hok).
    congruence.
Qed.

(** X12. Once the submit control has been clicked and with title
    and URL readable, [submit_form] returns [False] exactly when the
    lookup of success messages raises or finds none, the URL still
    contains "DailyPrecipReport", and the lookup of error messages
    finds at least one element all of whose texts can be read.  So a
    lookup of error messages that raises, or an error message whose text
    cannot be read, leaves the submission classified as a success. *)
Theorem submit_fails_after_click_iff (w w1 : World B E)
    (page_title url : string) :
  submit_click w = (Ok true, w1) ->
  let page := drv_wait 3 (browser w1) in
  drv_title page = Ok page_title ->
  drv_current_url page = Ok url ->
  ((submit_form w).1 = Ok false
   <-> (forall success_elements,
          drv_find_elements CLASS_NAME "successmessage" page
          = Ok success_elements -> success_elements = [])
       /\ contains "DailyPrecipReport" url = true
       /\ exists error_messages,
            drv_find_elements CLASS_NAME "errormessage" page
            = Ok error_messages
            /\ error_messages <> []
            /\ Forall (fun e => exists s, elt_text e page = Ok s)
                 error_messages).
Proof.
  intros Hclick page Ht Hu.
  unfold submit_form, try_except, bind at 1. rewrite Hclick.
  unfold submit_outcome. fold after_success_check.
  unfold bind at 1. unfold sleep at 1.
  unfold bind at 1. unfold title at 1, query at 1. simpl. fold page.
  rewrite Ht.
  unfold bind at 1. unfold current_url at 1, query at 1. simpl. fold page.
  rewrite Hu.
  unfold bind at 1. unfold log at 1.
  unfold bind at 1. unfold try_except at 1, bind at 1.
  unfold find_elements at 1, query at 1. simpl. fold page.
  destruct (drv_find_elements CLASS_NAME "successmessage" page)
    as [[|s ss]|x] eqn:Hs; simpl.
  2: { split; [done|]. intros [Hnone _]. by specialize (Hnone _ eq_refl). }
  all: match goal with
       | |- (let (_, _) := after_success_check ?w0 in _).1 = _ <-> _ =>
           destruct (after_success_check_result w0 url Hu)
             as (ok & w2 & -> & Htail)
       end; simpl in *.
  - split.
    + intros [= ->]. split; [by intros ? [= <-]|]. by apply Htail.
    + intros [_ H]. f_equal. by apply Htail.
  - split.
    + intros [= ->]. split; [by intros ? [=]|]. by apply Htail.
    + intros [_ H]. f_equal. by apply Htail.
Qed.
End SubmitFaults.




(** X14. For each of the five optional numeric attributes: when
    the key is missing its value is the empty string; when the key is
    present the value is [str] of what the request holds, so the default
    does not apply.  In particular a key present with JSON null gives
    the value "None", which is populated and looked up on the form. *)
Theorem present_values_are_rendered (form_data : gmap string PyVal)
    (dt : datetime) (key id : string) :
  (key, id) ∈ optional_fields ->
  (form_data !! key = None ->
   (key, (id, "")) ∈ fields_to_fill dt form_data)
  /\ (forall v, form_data !! key = Some v ->
        (key, (id, str v)) ∈ fields_to_fill dt form_data)
  /\ (form_data !! key = Some PyNone ->
      (key, (id, "None")) ∈ fields_to_fill dt form_data
      /\ (ID, id) ∈ due (fields_to_fill dt form_data)).
Proof.
  intros Hin.
  assert (forall v, form_data !! key = Some v ->
            (key, (id, str v)) ∈ fields_to_fill dt form_data) as Hsome.
  { intros v Hv. unfold optional_fields in Hin.
    unfold fields_to_fill, dict_get_default.
    repeat (apply elem_of_cons in Hin as [Heq|Hin];
            [injection Heq as -> ->; rewrite Hv; simpl;
             repeat first [apply list_elem_of_here
                          |apply list_elem_of_further]|]).
    by apply elem_of_nil in Hin. }
  split; [|split; [done|]].
  - intros Hv. unfold optional_fields in Hin.
    unfold fields_to_fill, dict_get_default.
    repeat (apply elem_of_cons in Hin as [Heq|Hin];
            [injection Heq as -> ->; rewrite Hv; simpl;
             repeat first [apply list_elem_of_here
                          |apply list_elem_of_further]|]).
    by apply elem_of_nil in Hin.
  - intros Hv. specialize (Hsome _ Hv). simpl in Hsome. split; [done|].
    unfold due. apply (list_elem_of_fmap_2 (fun entry => (ID, entry.2.1)) _
                         (key, (id, "None"))).
    by apply list_elem_of_filter.
Qed.

Section FillTyping.
Context {B E : Type} {drv : WebDriver B E}.

Lemma typed_app (t1 t2 : list (Event E)) :
  typed (t1 ++ t2) = typed t1 ++ typed t2.
Proof. apply omap_app. Qed.

Lemma typed_passive (t : list (Event E)) :
  forallb passive t = true -> typed t = [] /\ actions t = [].
Proof.
  induction t as [|ev t IH]; [done|]. simpl.
  intros [Hev Ht]%andb_prop. destruct (IH Ht) as [IH1 IH2].
  unfold actions in *. by destruct ev.
Qed.

Lemma values_cons (entry : string * (string * string))
    (entries : list (string * (string * string))) :
  values (entry :: entries) = values [entry] ++ values entries.
Proof.
  unfold values. rewrite <- map_app. f_equal.
  rewrite !filter_cons, filter_nil. by destruct (decide _).
Qed.

Lemma fill_one_typed (entry : string * (string * string)) (w : World B E) :
  exists w' t,
    fill_one entry w = (Ok tt, w')
    /\ trace w' = trace w ++ t /\ typed t `sublist_of` values [entry].
Proof.
  destruct entry as [field_name [field_id field_value]].
  unfold fill_one, values. rewrite filter_cons, filter_nil. simpl.
  destruct (populated field_value) eqn:Hpop.
  2: { rewrite decide_False by done. exists w, []. by rewrite app_nil_r. }
  rewrite decide_True by done.
  unfold try_except, bind, find_element, clear, send_keys, query, command,
    log, emit. simpl.
  destruct (drv_find_element ID field_id (browser w)) as [field|e].
  2: { eexists _, [_; _]. simpl. rewrite <- app_assoc.
       split; [done|]. split; [done|]. apply sublist_nil_l. }
  destruct (elt_clear field (browser w)) as [[[]|e] b1]; simpl.
  2: { eexists _, [_; _; _]. simpl. rewrite <- !app_assoc.
       split; [done|]. split; [done|]. apply sublist_nil_l. }
  destruct (elt_send_keys field field_value b1) as [[[]|e] b2]; simpl.
  2: { eexists _, [_; _; _; _]. simpl. by rewrite <- !app_assoc. }
  eexists _, [_; _; _; _]. simpl. by rewrite <- !app_assoc.
Qed.

Lemma fill_loop_typed (entries : list (string * (string * string)))
    (w : World B E) :
  exists w' t,
    for_each entries fill_one w = (Ok tt, w')
    /\ trace w' = trace w ++ t /\ typed t `sublist_of` values entries.
Proof.
  revert w. induction entries as [|entry entries IH]; intros w.
  - exists w, []. by rewrite app_nil_r.
  - destruct (fill_one_typed entry w) as (w1 & t1 & Hrun1 & Ht1 & Hl1).
    destruct (IH w1) as (w2 & t2 & Hrun2 & Ht2 & Hl2).
    exists w2, (t1 ++ t2). simpl. rewrite (bind_ok _ _ _ _ _ Hrun1).
    split; [done|]. rewrite Ht2, Ht1, <- app_assoc. split; [done|].
    rewrite typed_app, values_cons. by apply sublist_app.
Qed.

Lemma fill_notes_typed (form_data : gmap string PyVal) (w : World B E) :
  exists w' t,
    fill_notes form_data w = (Ok tt, w')
    /\ trace w' = trace w ++ t
    /\ typed t `sublist_of` notes_value form_data.
Proof.
  unfold fill_notes, notes_value, dict_get, dict_item.
  destruct (form_data !! "additionalNotes") as [notes|]; simpl; [|].
  2: { exists w, []. by rewrite app_nil_r. }
  destruct (truthy notes).
  2: { exists w, []. by rewrite app_nil_r. }
  unfold try_except, bind, find_element, clear, send_keys, query, command,
    log, lift, emit. simpl.
  destruct (drv_find_element ID "frmReport_txtNotes" (browser w))
    as [field|e].
  2: { eexists _, [_; _]. simpl. rewrite <- app_assoc.
       split; [done|]. split; [done|]. apply sublist_nil_l. }
  destruct (elt_clear field (browser w)) as [[[]|e] b1]; simpl.
  2: { eexists _, [_; _; _]. simpl. rewrite <- !app_assoc.
       split; [done|]. split; [done|]. apply sublist_nil_l. }
  destruct (elt_send_keys field (str notes) b1) as [[[]|e] b2]; simpl.
  2: { eexists _, [_; _; _; _]. simpl. by rewrite <- !app_assoc. }
  eexists _, [_; _; _; _]. simpl. by rewrite <- !app_assoc.
Qed.

(** X15. For every browser, the fill stage only adds to the
    trace; when it returns [False] it has cleared, typed and clicked
    nothing; and when the report date parses, the strings it types are,
    in order, among the populated values of the mapping followed by the
    notes, each typed at most once. *)
Theorem fill_types_only_rendered_values (form_data : gmap string PyVal)
    (w : World B E) :
  exists t,
    trace (fill_form_fields form_data w).2 = trace w ++ t
    /\ ((fill_form_fields form_data w).1 = Ok false -> actions t = [])
    /\ forall dt,
         parse_report_date form_data = Ok dt ->
         typed t `sublist_of`
           values (fields_to_fill dt form_data) ++ notes_value form_data.
Proof.
  destruct (emits_fill_enumerate passive (fun ev H => H) w)
    as (t1 & Ht1 & HP1).
  destruct (typed_passive t1 HP1) as [Hty1 Hac1].
  destruct (fill_enumerate w) as [[[]|e] w1] eqn:Henum; simpl in Ht1.
  2: { exists (t1 ++ [ Log ERROR "Error filling form: {str(e)}";
                       Log ERROR "{traceback.format_exc()}" ]).
       assert (fill_form_fields form_data w = fill_failed e w1) as ->.
       { unfold fill_form_fields, try_except.
         by rewrite (bind_raise _ _ _ _ _ Henum). }
       simpl. rewrite Ht1, <- !app_assoc. split; [done|].
       rewrite actions_app, typed_app, Hty1, Hac1. simpl.
       split; [done|]. intros dt _. apply sublist_nil_l. }
  destruct (parse_report_date form_data) as [dt|e] eqn:Hparse.
  2: { exists (t1 ++ [ Log ERROR "Error filling form: {str(e)}";
                       Log ERROR "{traceback.format_exc()}" ]).
       assert (fill_form_fields form_data w = fill_failed e w1) as ->.
       { unfold fill_form_fields, try_except.
         rewrite (bind_ok _ _ _ _ _ Henum).
         unfold bind, lift. by rewrite Hparse. }
       simpl. rewrite Ht1, <- !app_assoc. split; [done|].
       rewrite actions_app, Hac1. simpl. split; [done|]. by intros dt [=]. }
  destruct (fill_loop_typed (fields_to_fill dt form_data) w1)
    as (w2 & t2 & Hrun2 & Ht2 & Hl2).
  destruct (fill_notes_typed form_data w2) as (w3 & t3 & Hrun3 & Ht3 & Hl3).
  exists (t1 ++ t2 ++ t3 ++ [Log INFO "Form fields filled successfully"]).
  assert (fill_form_fields form_data w
          = (Ok true, emit (Log INFO "Form fields filled successfully") w3))
    as Hrun.
  { unfold fill_form_fields, try_except.
    rewrite (bind_ok _ _ _ _ _ Henum).
    unfold lift at 1. rewrite Hparse. unfold bind at 1.
    by rewrite (bind_ok _ _ _ _ _ Hrun2), (bind_ok _ _ _ _ _ Hrun3). }
  rewrite Hrun. simpl.
  rewrite Ht3, Ht2, Ht1, <- !app_assoc. split; [done|]. split; [done|].
  intros dt' [= <-]. rewrite !typed_app, Hty1. simpl. rewrite app_nil_r.
  by apply sublist_app.
Qed.

End FillTyping.

(** ** The shape of the rendered timestamp *)

Lemma length_append (s1 s2 : string) :
  String.length (s1 ++ s2)%string = String.length s1 + String.length s2.
Proof. induction s1 as [|c s1 IH]; simpl; [done|]. by rewrite IH. Qed.

Lemma check_seqZ (P : Z -> bool) (m : Z) (n : Z) :
  forallb P (seqZ m n) = true ->
  forall k, (m <= k < m + n)%Z -> P k = true.
Proof.
  intros Hall k Hk. rewrite forallb_forall in Hall. apply Hall.
  apply list_elem_of_In, elem_of_seqZ. lia.
Qed.

Lemma two_digits (n : Z) :
  (0 <= n <= 99)%Z -> String.length (zfill 2 (str_int n)) = 2.
Proof.
  intros Hn.
  apply Nat.eqb_eq.
  apply (check_seqZ (fun k => String.length (zfill 2 (str_int k)) =? 2) 0 100);
    [by vm_compute|lia].
Qed.

Lemma four_digits (n : Z) :
  (1000 <= n <= 9999)%Z -> String.length (str_int n) = 4.
Proof.
  intros Hn.
  apply Nat.eqb_eq.
  apply (check_seqZ (fun k => String.length (str_int k) =? 4) 1000 9000);
    [by vm_compute|lia].
Qed.

Lemma parsed_is_valid (s : string) (dt : datetime) :
  parse_isoformat s = Some dt -> valid_datetime dt = true.
Proof.
  unfold parse_isoformat.
  destruct (parse_isoformat_date _) as [[[y mo] d]|]; [|done].
  destruct (match String.substring 11 _ s with
            | EmptyString => _
            | String _ _ => _
            end) as [[[[h mi] sec] us]|]; [|done].
  destruct (valid_datetime _) eqn:Hv; [|done]. by intros [= <-].
Qed.

Lemma report_date_is_valid (form_data : gmap string PyVal) (dt : datetime) :
  parse_report_date form_data = Ok dt -> valid_datetime dt = true.
Proof.
  unfold parse_report_date, fromisoformat.
  destruct (dict_item form_data "reportDate") as [[]|]; try done.
  destruct (parse_isoformat s) eqn:Hp; [|done].
  intros [= <-]. by apply parsed_is_valid in Hp.
Qed.

(** X17. For every request whose report date parses, the time
    string has five characters, month and day are rendered on two
    characters each, the date string has six characters plus those of
    the year, which is not padded: ten characters from year 1000 on. *)
Theorem rendered_timestamp_shape (form_data : gmap string PyVal)
    (dt : datetime) :
  parse_report_date form_data = Ok dt ->
  String.length (render_time dt) = 5
  /\ String.length (r_month (render dt)) = 2
  /\ String.length (r_day (render dt)) = 2
  /\ String.length (render_date dt) = 6 + String.length (str_int (year dt))
  /\ ((1000 <= year dt)%Z -> String.length (render_date dt) = 10).
Proof.
  intros Hv%report_date_is_valid. unfold valid_datetime in Hv.
  repeat (apply andb_prop in Hv as [Hv ?]).
  assert (days_in_month (year dt) (month dt) <= 31)%Z as Hd.
  { unfold days_in_month. repeat case_match; lia. }
  assert (String.length (render_date dt)
          = 6 + String.length (str_int (year dt))) as Hdate.
  { unfold render_date, render. cbn [r_month r_day r_year].
    rewrite !length_append, !two_digits by lia. simpl. lia. }
  split; [|split; [|split; [|split]]].
  - unfold render_time, render. cbn [r_hour r_minute].
    rewrite !length_append, !two_digits by lia. done.
  - simpl. apply two_digits. lia.
  - simpl. apply two_digits. lia.
  - done.
  - intros Hy. rewrite Hdate, four_digits by lia. done.
Qed.

(** ** The theorems at work on the small browser *)

Import Toy.

(** A page showing both banners after the click classifies as success. *)
Lemma submit_classifies_by_priority_witness :
  (@submit_form _ _ (driver (portal_with mixed_page)) (showing form_page)).1
  = Ok true.
Proof.
  edestruct (@submit_classifies_by_priority _ _
               (driver (portal_with mixed_page)) (showing form_page))
    as [_ H].
  - reflexivity.
  - reflexivity.
  - reflexivity.
  - reflexivity.
  - reflexivity.
  - constructor; [by eexists|constructor].
  - apply H. reflexivity.
Defined.

(** With the portal down the run stops at the login; with a date that
    does not parse it stops at the fill stage. *)
Lemma pipeline_halts_at_first_failure_witness :
  (@submit_cocorahs _ _ (driver down) (Ok fresh)
     (report "2024-01-05T07:30" [])).1
  = failure "Failed to log in to CoCoRaHS" 401
  /\ (@submit_cocorahs _ _ (driver portal) (Ok fresh)
        (report "yesterday" [])).1
     = failure "Failed to fill form fields" 400.
Proof.
  split.
  - edestruct (@pipeline_halts_at_first_failure _ _ (driver down)
                 (login_to_cocorahs (drv := driver down))
                 (navigate_to_precip_form (drv := driver down))
                 select_station
                 (fill_form_fields (drv := driver down))
                 (submit_form (drv := driver down)) fresh
                 (report "2024-01-05T07:30" []))
      as (H & _); [reflexivity|].
    unfold submit_cocorahs. erewrite H; reflexivity.
  - edestruct (@pipeline_halts_at_first_failure _ _ (driver portal)
                 (login_to_cocorahs (drv := driver portal))
                 (navigate_to_precip_form (drv := driver portal))
                 select_station
                 (fill_form_fields (drv := driver portal))
                 (submit_form (drv := driver portal)) fresh
                 (report "yesterday" []))
      as (_ & _ & _ & H & _); [reflexivity|].
    unfold submit_cocorahs. erewrite H; reflexivity.
Defined.

(** A successful run ends with the browser being quit. *)
Lemma session_released_on_every_exit_witness :
  let run := @submit_cocorahs _ _ (driver portal) (Ok fresh)
               (report "2024-01-05T07:30" [("gaugeCatch", PyStr "0.25")]) in
  success run.1 = true /\ last run.2 = Some Quit.
Proof.
  intros run. split; [reflexivity|]. subst run.
  destruct (@session_released_on_every_exit _ _ (driver portal)
              (login_to_cocorahs (drv := driver portal))
              (navigate_to_precip_form (drv := driver portal))
              select_station
              (fill_form_fields (drv := driver portal))
              (submit_form (drv := driver portal)) fresh
              (report "2024-01-05T07:30" [("gaugeCatch", PyStr "0.25")])
              eq_refl) as [_ (response & w & _ & Hrun)].
  rewrite Hrun. simpl. apply last_snoc.
Defined.


Lemma bare_report_populates_date_and_time_witness :
  let form_data := report "2024-01-05T07:30" [] in
  let dt := {| year := 2024; month := 1; day := 5; hour := 7; minute := 30;
               second := 0; microsecond := 0 |} in
  map fst (filter (fun entry => populated entry.2.2 = true)
             (fields_to_fill dt form_data))
  = ["date"; "time"].
Proof.
  intros form_data dt.
  edestruct (bare_report_populates_date_and_time form_data dt) as (H & _).
  - repeat (constructor; [reflexivity|]). constructor.
  - rewrite H. reflexivity.
Defined.

(** The user field of the login page does not answer to the first
    strategy; the second finds it and the other five are not tried. *)
Lemma locate_takes_first_live_witness :
  exists t,
    @locate _ _ (driver portal) Username (showing login_page)
    = (Ok (Some (input "u" "username" "text")),
       {| browser := browser (showing login_page); trace := t |})
    /\ lookups t = [(NAME, "UserName"); (NAME, "username")].
Proof.
  edestruct (@locate_takes_first_live _ _ (driver portal) Username
               [(NAME, "UserName")] NAME "username"
               [ (ID, "UserName"); (ID, "username"); (NAME, "txtUserName");
                 (ID, "txtUserName"); (CSS_SELECTOR, "input[type='text']") ]
               (showing login_page) (input "u" "username" "text"))
    as (t & Hrun & Ht).
  - reflexivity.
  - constructor; [by eexists|constructor].
  - reflexivity.
  - exists t. split; [exact Hrun|exact Ht].
Defined.

(** After the click the portal shows the form: the login succeeded. *)
Lemma login_fails_iff_still_on_login_witness :
  (@login_to_cocorahs _ _ (driver portal)
     {| browser := fresh; trace := [] |}).1 = Ok true.
Proof.
  exact (@login_fails_iff_still_on_login _ _ (driver portal)
           {| browser := fresh; trace := [] |} _ _ _
           eq_refl eq_refl eq_refl).
Defined.




(** ** The further properties at work on the small browser *)



Lemma run_succeeds_iff_all_stages_witness :
  success
    (@submit_cocorahs _ _ (driver portal) (Ok fresh)
       (report "2024-01-05T07:30" [("gaugeCatch", PyStr "0.25")])).1
  = true.
Proof.
  apply (@run_succeeds_iff_all_stages _ _ (driver portal) fresh
           (report "2024-01-05T07:30" [("gaugeCatch", PyStr "0.25")])
           eq_refl).
  eexists _, _, _, _.
  split; [vm_compute; reflexivity|]. split; [vm_compute; reflexivity|].
  split; [vm_compute; reflexivity|]. split; vm_compute; reflexivity.
Defined.

Lemma run_keeps_session_discipline_witness :
  exists t,
    (@submit_cocorahs _ _ (driver down) (Ok fresh)
       (report "2024-01-05T07:30" [])).2
    = [received; Launch] ++ t ++ [Quit]
    /\ forallb in_session t = true.
Proof.
  exact (@run_keeps_session_discipline _ _ (driver down) fresh
           (report "2024-01-05T07:30" []) eq_refl).
Defined.

(** With the portal down no control is found: nothing is typed. *)
Lemma login_types_nothing_unless_located_witness :
  exists t,
    trace (@login_click _ _ (driver down) (showing blank)).2
    = trace (showing blank) ++ t
    /\ actions t = [].
Proof.
  apply (@login_types_nothing_unless_located _ _ (driver down)).
  vm_compute. reflexivity.
Defined.

Lemma login_types_credentials_into_located_fields_witness :
  exists t,
    trace (@login_click _ _ (driver portal) (showing blank)).2
    = trace (showing blank) ++ t
    /\ actions t
       = [ Clear (input "u" "username" "text");
           SendKeys (input "u" "username" "text") "lscwx";
           Clear (input "p" "Password" "password");
           SendKeys (input "p" "Password" "password") "stratus";
           Click (input "btnLogin" "btnLogin" "submit") ].
Proof.
  destruct (@login_types_credentials_into_located_fields _ _ (driver portal)
              (showing blank)
              (@login_click _ _ (driver portal) (showing blank)).2)
    as (w1 & w2 & w3 & w4 & u & p & b & H1 & H2 & H3 & H4 & t & Ht & Ha).
  { vm_compute. reflexivity. }
  exists t. split; [exact Ht|].
  assert (w1 = (@login_enumerate _ _ (driver portal) (showing blank)).2)
    as -> by (by rewrite H1).
  vm_compute in H2. injection H2 as <- <-.
  vm_compute in H3. injection H3 as <- <-.
  vm_compute in H4. injection H4 as <- <-.
  exact Ha.
Defined.

Lemma login_fails_without_username_field_witness :
  exists t,
    @login_to_cocorahs _ _ (driver down) (showing blank)
    = (Ok false,
       {| browser := {| page := blank; pending := None |};
          trace := trace (@login_enumerate _ _ (driver down)
                            (showing blank)).2 ++ t |})
    /\ lookups t = strategies Username
    /\ actions t = [].
Proof.
  apply (@login_fails_without_username_field _ _ (driver down)
           (showing blank)
           (@login_enumerate _ _ (driver down) (showing blank)).2).
  - vm_compute. reflexivity.
  - repeat (constructor; [by eexists|]). constructor.
Defined.

(** On the form already: no [get]; elsewhere: one [get]. *)
Lemma navigate_only_when_needed_witness :
  (exists t,
     trace (@navigate_to_precip_form _ _ (driver portal)
              (showing form_page)).2 = trace (showing form_page) ++ t
     /\ gets t = [])
  /\ exists t,
       trace (@navigate_to_precip_form _ _ (driver portal)
                (showing blank)).2 = trace (showing blank) ++ t
       /\ gets t = [COCORAHS_SUBMIT_URL].
Proof.
  split.
  - apply (@navigate_only_when_needed _ _ (driver portal)
             (showing form_page) COCORAHS_SUBMIT_URL). reflexivity.
  - apply (@navigate_only_when_needed _ _ (driver portal)
             (showing blank) "about:blank"). reflexivity.
Defined.

(** The second button wins over the submit input further down. *)
Lemma submit_click_targets_first_control_witness :
  exists t,
    trace (@submit_click _ _ (driver portal) (showing button_page)).2
    = trace (showing button_page) ++ t
    /\ actions t = [Click (button "btnSend" "  SUBMIT report ")].
Proof.
  edestruct (@submit_click_targets_first_control _ _ (driver portal)
               (showing button_page)) as (t & Ht & Hc).
  - reflexivity.
  - reflexivity.
  - repeat (constructor; [split; [by eexists|intros; by eexists]|]).
    constructor.
  - repeat (constructor; [split; [by eexists|intros; by eexists]|]).
    constructor.
  - exists t. split; [exact Ht|exact (proj1 Hc)].
Defined.

(** An error banner on the form after the click: the submission failed. *)
Lemma submit_fails_after_click_iff_witness :
  (@submit_form _ _ (driver (portal_with rejected_page))
     (showing form_page)).1 = Ok false.
Proof.
  eapply (@submit_fails_after_click_iff _ _
            (driver (portal_with rejected_page)) (showing form_page)).
  - reflexivity.
  - reflexivity.
  - reflexivity.
  - split; [by intros ? [= <-]|]. split; [reflexivity|].
    eexists. split; [reflexivity|]. split; [done|].
    constructor; [by eexists|constructor].
Defined.

(** A gauge catch sent as null is typed as "None". *)
Lemma present_values_are_rendered_witness :
  let form_data := report "2024-01-05T07:30" [("gaugeCatch", PyNone)] in
  let dt := {| year := 2024; month := 1; day := 5; hour := 7; minute := 30;
               second := 0; microsecond := 0 |} in
  (ID, "frmReport_prTotalPrecip__ctl1_tbPrecip")
  ∈ due (fields_to_fill dt form_data).
Proof.
  intros form_data dt.
  edestruct (present_values_are_rendered form_data dt "gaugeCatch"
               "frmReport_prTotalPrecip__ctl1_tbPrecip") as (_ & _ & H).
  - apply list_elem_of_here.
  - apply H. reflexivity.
Defined.

Lemma fill_types_only_rendered_values_witness :
  let form_data :=
    report "2024-01-05T07:30"
      [("snowpackDepth", PyInt 3); ("additionalNotes", PyStr "windy")] in
  exists t,
    trace (@fill_form_fields _ _ (driver portal) form_data
             (showing form_page)).2 = trace (showing form_page) ++ t
    /\ typed t `sublist_of` ["01/05/2024"; "07:30"; "3"; "windy"].
Proof.
  intros form_data.
  destruct (@fill_types_only_rendered_values _ _ (driver portal) form_data
              (showing form_page)) as (t & Ht & _ & Hs).
  exists t. split; [exact Ht|].
  exact (Hs {| year := 2024; month := 1; day := 5; hour := 7; minute := 30;
               second := 0; microsecond := 0 |} eq_refl).
Defined.

Lemma rendered_timestamp_shape_witness :
  let dt := {| year := 2024; month := 1; day := 5; hour := 7; minute := 30;
               second := 0; microsecond := 0 |} in
  String.length (render_time dt) = 5 /\ String.length (render_date dt) = 10.
Proof.
  intros dt.
  edestruct (rendered_timestamp_shape (report "2024-01-05T07:30" []) dt)
    as (Ht & _ & _ & _ & Hd); [reflexivity|].
  split; [exact Ht|]. apply Hd. simpl. lia.
Defined.
